(** * mooseherder: the Exodus reader ([src/mooseherder/exodusreader.py])

    A shallow embedding of [ExodusReader], the class that decodes one
    MOOSE output file (an Exodus II container read through netCDF4) into a
    [SimData] record, and the properties of it that the specification
    states.

    Python exceptions are values of [exn] carried by the [result] monad;
    dictionaries are stdpp finite maps; numpy arrays are one- or
    two-dimensional tables of primitive floats.

    The checks and conversions of [MooseConfig]
    ([src/mooseherder/mooseconfig.py]) are embedded in a module of their
    own; its reading and writing of JSON files is not. *)

From Stdlib Require Import PrimFloat Ascii.
From stdpp Require Import gmap strings list fin_maps pretty.

Local Open Scope string_scope.

(** ** Exceptions *)

(** The Python exceptions the reader can raise, by class. *)
Inductive exn : Set :=
  | FileNotFoundError
  | OSError
  | IndexError
  | KeyError
  | TypeError
  | AttributeError
  | RuntimeError
  | ValueError.

(** A computation either returns or raises. *)
Inductive result (A : Type) : Type :=
  | Ok (a : A)
  | Raise (e : exn).
Arguments Ok {A} a.
Arguments Raise {A} e.

(** Sequencing: stdpp's [x ← c; k] on [result]. *)
Global Instance result_bind : MBind result := λ A B k c,
  match c with
  | Ok a => k a
  | Raise e => Raise e
  end.

(** [for xs: s = body(s, x)], stopping at the first exception. *)
Fixpoint for_each {A S : Type} (xs : list A) (body : S → A → result S) (s : S)
  : result S :=
  match xs with
  | [] => Ok s
  | x :: xs' => s' ← body s x; for_each xs' body s'
  end.

(** ** numpy arrays *)

(** The arrays the reader handles: vectors of shape [(n,)] and tables of
    shape [(nrows, ncols)], stored by rows.  The reader moves entries and
    never computes with them, so one entry type stands for every stored
    type, node and element numbers included. *)
Inductive ndarray : Type :=
  | Vec (l : list float)
  | Mat (nrows ncols : nat) (rows : list (list float)).

(** [np.array([])] *)
Definition np_empty : ndarray := Vec [].

(** [a.shape[0]] *)
Definition shape0 (a : ndarray) : nat :=
  match a with
  | Vec l => length l
  | Mat r _ _ => r
  end.

(** Column [j] of a list of rows. *)
Definition column (j : nat) (rows : list (list float)) : list float :=
  map (λ r, nth j r 0%float) rows.

Definition transpose_rows (ncols : nat) (rows : list (list float))
  : list (list float) :=
  map (λ j, column j rows) (seq 0 ncols).

(** [a.T]: the identity on a vector, the transpose of a table. *)
Definition np_T (a : ndarray) : ndarray :=
  match a with
  | Vec l => Vec l
  | Mat r c rows => Mat c r (transpose_rows c rows)
  end.

(** [np.zeros([dim,])] *)
Definition np_zeros (dim : nat) : ndarray := Vec (replicate dim 0%float).

(** [np.atleast_2d], as [np.vstack] applies it to each argument. *)
Definition atleast_2d (a : ndarray) : nat * nat * list (list float) :=
  match a with
  | Vec l => (1, length l, [l])
  | Mat r c rows => (r, c, rows)
  end.

(** [np.vstack((x,y,z))]: the rows of the three arguments one below the
    other; numpy raises [ValueError] when their row lengths differ. *)
Definition np_vstack3 (x y z : ndarray) : result ndarray :=
  let '(r1, c1, m1) := atleast_2d x in
  let '(r2, c2, m2) := atleast_2d y in
  let '(r3, c3, m3) := atleast_2d z in
  if Nat.eqb c1 c2 && Nat.eqb c2 c3
  then Ok (Mat (r1 + r2 + r3) c1 (m1 ++ m2 ++ m3)%list)
  else Raise ValueError.

(** [np.where(all_names == name)[0]]: the positions, in increasing order
    and counted from [i], at which [name] occurs. *)
Fixpoint where_from (i : nat) (all_names : list string) (name : string)
  : list nat :=
  match all_names with
  | [] => []
  | x :: rest =>
      if decide (x = name)
      then i :: where_from (S i) rest name
      else where_from (S i) rest name
  end.

Definition np_where (all_names : list string) (name : string) : list nat :=
  where_from 0 all_names name.

(** The same with a name table that may be [None]: [None == name] is
    [False], which holds at no position. *)
Definition np_where_opt (all_names : option (list string)) (name : string)
  : list nat :=
  match all_names with
  | None => []
  | Some l => np_where l name
  end.

(** ** The netCDF dataset *)

(** [self._data.variables].  The Exodus schema fixes which keys hold
    character tables (the name tables [name_nod_var], [name_elem_var],
    [name_glo_var], [ss_names], [eb_names], read only by [get_names]) and
    which hold numbers (everything [get_var] reads), so the two kinds are
    kept in two maps; [nc.chartostring] of a name table is its list of
    names. *)
Record Dataset : Type := {
  name_tables : gmap string (list string);
  variables : gmap string ndarray
}.

Record ExodusReader : Type := {
  _exodus_path : string;
  _data : Dataset
}.

(** ** Paths and files *)

(** What the constructor sees of the disk: the netCDF files by path, the
    paths of the other regular files, and the paths of the directories. *)
Record FileSystem : Type := {
  netcdf_files : gmap string Dataset;
  other_files : gset string;
  directories : gset string
}.

(** [Path.is_file()] *)
Definition is_file (fs : FileSystem) (p : string) : bool :=
  bool_decide (is_Some (netcdf_files fs !! p)) || bool_decide (p ∈ other_files fs).

(** The longest prefix of [l] without the character [c]. *)
Fixpoint take_until (c : ascii) (l : list ascii) : list ascii :=
  match l with
  | [] => []
  | x :: r => if decide (x = c) then [] else x :: take_until c r
  end.

(** [Path.name]: the final component. *)
Definition path_name (p : string) : list ascii :=
  rev (take_until "/"%char (rev (String.list_ascii_of_string p))).

(** [Path.suffix]: with [i = name.rfind('.')], the text [name[i:]] when
    [0 < i < len(name) - 1], the empty string otherwise. *)
Definition path_suffix (p : string) : string :=
  let name := path_name p in
  let ext := take_until "."%char (rev name) in
  if Nat.ltb (length ext) (length name)        (* a dot, at i = len - 1 - |ext| *)
     && Nat.ltb 0 (length ext)                 (* i < len(name) - 1 *)
     && Nat.ltb (S (length ext)) (length name) (* 0 < i *)
  then String.string_of_list_ascii ("."%char :: rev ext)
  else "".

(** [nc.Dataset(str(path))]: netCDF4 raises [OSError] built from the C
    library's error number.  Something that is there and is no netCDF
    file, a directory included, gives a plain [OSError]; a path with
    nothing at it gives [FileNotFoundError]. *)
Definition nc_Dataset (fs : FileSystem) (p : string) : result Dataset :=
  match netcdf_files fs !! p with
  | Some d => Ok d
  | None =>
      if is_file fs p || bool_decide (p ∈ directories fs)
      then Raise OSError
      else Raise FileNotFoundError
  end.

(** [ExodusReader.__init__] *)
Definition init (fs : FileSystem) (exodus_file : string) : result ExodusReader :=
  if negb (is_file fs exodus_file) && negb (bool_decide (path_suffix exodus_file = ".e"))
  then Raise FileNotFoundError
  else
    d ← nc_Dataset fs exodus_file;
    Ok {| _exodus_path := exodus_file; _data := d |}.

(** ** Reading names and values *)

(** [get_names] *)
Definition get_names (self : ExodusReader) (key : option string)
  : option (list string) :=
  match key with
  | None => None
  | Some k => name_tables (_data self) !! k
  end.

(** [get_var]; the key may be [None], which is in no dataset. *)
Definition get_var (self : ExodusReader) (key : option string) : ndarray :=
  match key with
  | None => np_empty
  | Some k =>
      match variables (_data self) !! k with
      | None => np_empty
      | Some a => np_T a
      end
  end.

(** [get_key] *)
Definition get_key (name : string) (all_names : list string) (key_tag : string)
  : option string :=
  match np_where all_names name with
  | [] => None
  | i :: _ => Some (key_tag +:+ pretty (i + 1))
  end.

Definition get_sideset_names (self : ExodusReader) := get_names self (Some "ss_names").
Definition get_node_var_names (self : ExodusReader) := get_names self (Some "name_nod_var").
Definition get_elem_var_names (self : ExodusReader) := get_names self (Some "name_elem_var").
Definition get_glob_var_names (self : ExodusReader) := get_names self (Some "name_glo_var").

(** [get_num_elem_blocks]: [.shape] of [None] is an [AttributeError]. *)
Definition get_num_elem_blocks (self : ExodusReader) : result nat :=
  match get_names self (Some "eb_names") with
  | None => Raise AttributeError
  | Some l => Ok (length l)
  end.

(** ** Connectivity *)

Definition connect_key (bb : nat) : string := "connect" +:+ pretty (bb + 1).

(** [get_connectivity_names] *)
Definition get_connectivity_names (self : ExodusReader) : result (list string) :=
  n ← get_num_elem_blocks self;
  Ok (foldl (λ (names : list string) bb,
               let key := connect_key bb in
               if bool_decide (is_Some (variables (_data self) !! key))
               then (names ++ [key])%list
               else names)
            [] (seq 0 n)).

(** [get_connectivity] *)
Definition get_connectivity (self : ExodusReader) : result (gmap string ndarray) :=
  names ← get_connectivity_names self;
  Ok (foldl (λ connect key, <[key := get_var self (Some key)]> connect) ∅ names).

(** ** Side sets *)

(** [get_sidesets] *)
Definition get_sidesets (self : ExodusReader) (names : option (list string))
  : option (gmap (string * string) ndarray) :=
  let all_names := get_sideset_names self in
  match names, all_names with
  | Some names, Some all_names =>
      let node_key_tag := "node_ns" in
      let elem_key_tag := "elem_ss" in
      Some (foldl (λ side_sets nn,
                     let node_key := get_key nn all_names node_key_tag in
                     let elem_key := get_key nn all_names elem_key_tag in
                     <[(nn, "elem") := get_var self elem_key]>
                       (<[(nn, "node") := get_var self node_key]> side_sets))
                  ∅ names)
  | _, _ => None
  end.

(** [get_all_sidesets] *)
Definition get_all_sidesets (self : ExodusReader) :=
  get_sidesets self (get_sideset_names self).

(** ** Nodal variables *)

(** [get_node_vars]: the position of each requested name is looked up in
    place, and [inds[0]] of an empty [inds] is an [IndexError]. *)
Definition get_node_vars (self : ExodusReader) (names : option (list string))
  : result (option (gmap string ndarray)) :=
  match names with
  | None => Ok None
  | Some names =>
      let all_names := get_node_var_names self in
      let key_tag := "vals_nod_var" in
      vars ← for_each names
        (λ (vars : gmap string ndarray) nn,
           match np_where_opt all_names nn with
           | [] => Raise IndexError
           | i :: _ =>
               let key := key_tag +:+ pretty (i + 1) in
               Ok (<[nn := get_var self (Some key)]> vars)
           end) ∅;
      Ok (Some vars)
  end.

(** [get_all_node_vars] *)
Definition get_all_node_vars (self : ExodusReader) :=
  get_node_vars self (get_node_var_names self).

(** ** Elemental variables *)

(** [get_elem_var_names_and_blocks].  The guard compares the bound method
    [self.get_elem_var_names] (never [None]) and the block count (an
    [int]) with [None], so it only evaluates [get_num_elem_blocks]; the
    loop then iterates over the name table, and iterating over [None] is
    a [TypeError]. *)
Definition get_elem_var_names_and_blocks (self : ExodusReader)
  : result (option (list (string * Z))) :=
  _ ← get_num_elem_blocks self;
  n ← get_num_elem_blocks self;
  let blocks := map (λ ii, Z.of_nat (ii + 1)) (seq 0 n) in
  match get_elem_var_names self with
  | None => Raise TypeError
  | Some names =>
      Ok (Some (foldl (λ (names_blocks : list (string * Z)) nn,
                         foldl (λ names_blocks bb, (names_blocks ++ [(nn, bb)])%list)
                               names_blocks blocks)
                      [] names))
  end.

(** [get_elem_vars]: [get_key(...) + f'eb{block:d}'] is a [TypeError]
    when [get_key] returns [None]. *)
Definition get_elem_vars (self : ExodusReader)
    (names_blocks : option (list (string * Z)))
  : result (option (gmap (string * Z) ndarray)) :=
  let all_names := get_elem_var_names self in
  match all_names, names_blocks with
  | Some all_names, Some names_blocks =>
      let key_tag := "vals_elem_var" in
      vars ← for_each names_blocks
        (λ (vars : gmap (string * Z) ndarray) nn,
           match get_key nn.1 all_names key_tag with
           | None => Raise TypeError
           | Some k =>
               let key := k +:+ ("eb" +:+ pretty nn.2) in
               Ok (<[nn := get_var self (Some key)]> vars)
           end) ∅;
      Ok (Some vars)
  | _, _ => Ok None
  end.

(** [get_all_elem_vars] *)
Definition get_all_elem_vars (self : ExodusReader) :=
  names_blocks ← get_elem_var_names_and_blocks self;
  get_elem_vars self names_blocks.

(** ** Global variables *)

(** [variables[key][:,i]]: column [i] of the shared table.  netCDF4
    refuses two indices on a one-dimensional variable with [ValueError]
    and a column past the last one with [IndexError]. *)
Definition take_column (tab : ndarray) (i : nat) : result ndarray :=
  match tab with
  | Vec _ => Raise ValueError
  | Mat _ c rows => if Nat.ltb i c then Ok (Vec (column i rows)) else Raise IndexError
  end.

(** [get_glob_vars]: the shared table is fetched with
    [self._data.variables['vals_glo_var']] (a [KeyError] when the file
    has none) and sliced at [inds[0]]. *)
Definition get_glob_vars (self : ExodusReader) (names : option (list string))
  : result (option (gmap string ndarray)) :=
  let all_names := get_glob_var_names self in
  match all_names, names with
  | Some all_names, Some names =>
      let key := "vals_glo_var" in
      glob_vars ← for_each names
        (λ (glob_vars : gmap string ndarray) nn,
           let inds := np_where all_names nn in
           match variables (_data self) !! key with
           | None => Raise KeyError
           | Some tab =>
               match inds with
               | [] => Raise IndexError
               | i :: _ => col ← take_column tab i; Ok (<[nn := col]> glob_vars)
               end
           end) ∅;
      Ok (Some glob_vars)
  | _, _ => Ok None
  end.

(** [get_all_glob_vars] *)
Definition get_all_glob_vars (self : ExodusReader) :=
  get_glob_vars self (get_glob_var_names self).

(** ** Coordinates and time *)

(** [_expand_coord] *)
Definition _expand_coord (coord : ndarray) (dim : nat) : ndarray :=
  if Nat.eqb (shape0 coord) 0 then np_zeros dim else coord.

(** [get_coords].  The table is also kept in [self.coords], an attribute
    that no method reads. *)
Definition get_coords (self : ExodusReader) : result ndarray :=
  let x := get_var self (Some "coordx") in
  let y := get_var self (Some "coordy") in
  let z := get_var self (Some "coordz") in
  let num_coords := shape0 x `max` (shape0 y `max` shape0 z) in
  if Nat.eqb num_coords 0
  then Raise RuntimeError
  else
    let x := _expand_coord x num_coords in
    let y := _expand_coord y num_coords in
    let z := _expand_coord z num_coords in
    stacked ← np_vstack3 x y z;
    Ok (np_T stacked).

(** [get_time] *)
Definition get_time (self : ExodusReader) : ndarray :=
  match variables (_data self) !! "time_whole" with
  | Some a => a
  | None => np_empty
  end.

(** ** The result record *)

(** Modelled from the spec: [mooseherder/simdata.py] is not among the
    sources.  [SimData] is the canonical result record of section 3, each
    field absent ([None]) until the reader sets it. *)
Record SimData : Type := {
  time : option ndarray;
  coords : option ndarray;
  connect : option (gmap string ndarray);
  side_sets : option (gmap (string * string) ndarray);
  node_vars : option (gmap string ndarray);
  elem_vars : option (gmap (string * Z) ndarray);
  glob_vars : option (gmap string ndarray)
}.

(** Modelled from the spec: [SimReadConfig], the read configuration of
    section 3, is declared in the same missing file. *)
Record SimReadConfig : Type := {
  cfg_sidesets : option (list string);
  cfg_node_vars : option (list string);
  cfg_elem_vars : option (list (string * Z));
  cfg_glob_vars : option (list string)
}.

(** [get_read_config] *)
Definition get_read_config (self : ExodusReader) : result SimReadConfig :=
  nb ← get_elem_var_names_and_blocks self;
  Ok {| cfg_sidesets := get_sideset_names self;
        cfg_node_vars := get_node_var_names self;
        cfg_elem_vars := nb;
        cfg_glob_vars := get_glob_var_names self |}.

(** [read_sim_data] *)
Definition read_sim_data (self : ExodusReader) (read_config : SimReadConfig)
  : result SimData :=
  let t := get_time self in
  c ← get_coords self;
  cn ← get_connectivity self;
  let ss := get_sidesets self (cfg_sidesets read_config) in
  nv ← get_node_vars self (cfg_node_vars read_config);
  ev ← get_elem_vars self (cfg_elem_vars read_config);
  gv ← get_glob_vars self (cfg_glob_vars read_config);
  Ok {| time := Some t; coords := Some c; connect := Some cn;
        side_sets := ss; node_vars := nv; elem_vars := ev; glob_vars := gv |}.

(** [read_all_sim_data] *)
Definition read_all_sim_data (self : ExodusReader) : result SimData :=
  let t := get_time self in
  c ← get_coords self;
  cn ← get_connectivity self;
  let ss := get_all_sidesets self in
  nv ← get_all_node_vars self;
  ev ← get_all_elem_vars self;
  gv ← get_all_glob_vars self;
  Ok {| time := Some t; coords := Some c; connect := Some cn;
        side_sets := ss; node_vars := nv; elem_vars := ev; glob_vars := gv |}.

(** ** The entries the loops write *)

(** The two entries [get_sidesets] writes for a side-set name. *)
Definition sideset_keys (nn : string) : list (string * string) :=
  [(nn, "node"); (nn, "elem")].

Definition sideset_value (self : ExodusReader) (all_names : list string)
    (k : string * string) : ndarray :=
  get_var self
    (get_key k.1 all_names (if decide (k.2 = "node") then "node_ns" else "elem_ss")).

(** The table [get_elem_vars] binds to a pair whose name is declared. *)
Definition elem_value (self : ExodusReader) (all_names : list string)
    (nn : string * Z) : ndarray :=
  match get_key nn.1 all_names "vals_elem_var" with
  | Some k => get_var self (Some (k +:+ ("eb" +:+ pretty nn.2)))
  | None => np_empty
  end.

(** ** The coordinate axes, as the dataset holds them *)

Definition coord_keys : list string := ["coordx"; "coordy"; "coordz"].

(** An axis is empty when the dataset has no such variable or the
    variable has no entry along its leading dimension as [get_var] reads
    it. *)
Definition axis_empty (self : ExodusReader) (key : string) : Prop :=
  match variables (_data self) !! key with
  | None => True
  | Some a => shape0 (np_T a) = 0
  end.

(** ** Sample files *)

(** A two-block plane mesh of six nodes and two time steps: nodal
    displacements, a strain stored for block 1 only, one global variable
    and two side sets of which only the first has members. *)
Definition mech_data : Dataset := {|
  name_tables := list_to_map
    [("eb_names", [""; ""]);
     ("name_nod_var", ["disp_x"; "disp_y"]);
     ("name_elem_var", ["strain_xx"]);
     ("name_glo_var", ["react_y"]);
     ("ss_names", ["bottom"; "top"])];
  variables := list_to_map
    [("coordx", Vec [0; 1; 2; 0; 1; 2]%float);
     ("coordy", Vec [0; 0; 0; 1; 1; 1]%float);
     ("time_whole", Vec [0; 0.5]%float);
     ("connect1", Mat 1 4 [[1; 2; 5; 4]]%float);
     ("connect2", Mat 1 4 [[2; 3; 6; 5]]%float);
     ("vals_nod_var1", Mat 2 6 [[0; 0; 0; 0; 0; 0]; [0; 0.125; 0.25; 0; 0.125; 0.25]]%float);
     ("vals_nod_var2", Mat 2 6 [[0; 0; 0; 0; 0; 0]; [0; 0; 0; 0.375; 0.375; 0.375]]%float);
     ("vals_elem_var1eb1", Mat 2 1 [[0]; [0.125]]%float);
     ("vals_glo_var", Mat 2 1 [[0]; [12.5]]%float);
     ("node_ns1", Vec [1; 2; 3]%float);
     ("elem_ss1", Vec [1; 2]%float)]
|}.

Definition mech : ExodusReader :=
  {| _exodus_path := "out/mech_out.e"; _data := mech_data |}.

(** The same mesh with nodal output only: no elemental or global name
    table, as MOOSE writes a run that requests neither. *)
Definition nodal_only : ExodusReader := {|
  _exodus_path := "out/nodal_out.e";
  _data := {|
    name_tables := list_to_map
      [("eb_names", [""; ""]); ("name_nod_var", ["disp_x"; "disp_y"])];
    variables := variables mech_data
  |}
|}.


(** Files of a mesh without nodes: an axis is declared and has no entry. *)
Definition empty_x : ExodusReader := {|
  _exodus_path := "out/empty_x.e";
  _data := {| name_tables := ∅; variables := {["coordx" := Vec []]} |}
|}.

Definition empty_y : ExodusReader := {|
  _exodus_path := "out/empty_y.e";
  _data := {| name_tables := ∅; variables := {["coordy" := Vec []]} |}
|}.

(** A disk with the first sample under two names, one of them without the
    [.e] extension, a text file, and two directories, one of them named
    like an output file. *)
Definition disk : FileSystem := {|
  netcdf_files := list_to_map
    [("out/mech_out.e", mech_data); ("out/mech_out.nc", mech_data)];
  other_files := {["out/stdout.processor.0"]};
  directories := {["out"; "out/archive.e"]}
|}.

(** ** Entries and shapes used by the further properties *)

(** The table [get_node_vars] binds to a declared name. *)
Definition node_value (self : ExodusReader) (nn : string) : ndarray :=
  match np_where_opt (get_node_var_names self) nn with
  | [] => np_empty
  | i :: _ => get_var self (Some ("vals_nod_var" +:+ pretty (i + 1)))
  end.

(** The column [get_glob_vars] binds to a declared name. *)
Definition glob_value (all_names : list string) (rows : list (list float))
    (nn : string) : ndarray :=
  match np_where all_names nn with
  | [] => np_empty
  | i :: _ => Vec (column i rows)
  end.

(** The length of an axis as [get_coords] measures it. *)
Definition axis_len (self : ExodusReader) (key : string) : nat :=
  shape0 (get_var self (Some key)).

(** A table holds as many rows as its shape says, each as long as its
    shape says. *)
Definition wf_array (a : ndarray) : Prop :=
  match a with
  | Vec _ => True
  | Mat r c rows => length rows = r ∧ Forall (λ row, length row = c) rows
  end.

(** The connectivity keys of the blocks 1 to [n] that the file holds, in
    block order. *)
Definition present_connect_keys (self : ExodusReader) (n : nat) : list string :=
  filter (λ key, is_Some (variables (_data self) !! key))
         (connect_key <$> seq 0 n).

(** ** Further sample files *)

(** Axes of different lengths. *)
Definition ragged : ExodusReader := {|
  _exodus_path := "out/ragged.e";
  _data := {|
    name_tables := ∅;
    variables := list_to_map
      [("coordx", Vec [0; 1]%float); ("coordy", Vec [0; 1; 2]%float)]
  |}
|}.

(** A global name table without the shared table of values. *)
Definition no_glob_table : ExodusReader := {|
  _exodus_path := "out/no_glob.e";
  _data := {|
    name_tables := list_to_map [("eb_names", [""]); ("name_glo_var", ["react_y"])];
    variables := list_to_map [("coordx", Vec [0; 1]%float)]
  |}
|}.

(** Coordinates, but no block table. *)
Definition no_blocks : ExodusReader := {|
  _exodus_path := "out/no_blocks.e";
  _data := {|
    name_tables := ∅;
    variables := list_to_map [("coordx", Vec [0; 1]%float)]
  |}
|}.

(** A configuration that asks for one nodal variable and nothing else. *)
Definition nodal_config : SimReadConfig := {|
  cfg_sidesets := None;
  cfg_node_vars := Some ["disp_x"];
  cfg_elem_vars := None;
  cfg_glob_vars := None
|}.

(** * The MOOSE configuration ([src/mooseherder/mooseconfig.py]) *)

Module MooseConfig.

(** A configuration value: a [pathlib.Path], held by its string form,
    or a [str]. *)
Inductive value : Type :=
  | VPath (p : string)
  | VStr (s : string).

(** [str(v)] *)
Definition str (v : value) : string :=
  match v with
  | VPath p => p
  | VStr s => s
  end.

(** [Path(s)]; [norm] is the normal form pathlib gives the text of a
    path (separators collapsed, [.] components dropped). *)
Definition Path (norm : string → string) (s : string) : value := VPath (norm s).

(** [sub in s] on strings. *)
Fixpoint contains (sub s : string) : bool :=
  String.prefix sub s
  || match s with
     | EmptyString => false
     | String _ s' => contains sub s'
     end.

(** What the class raises: its own [MooseConfigError], or a built-in
    exception. *)
Inductive error : Set :=
  | MooseConfigError
  | Builtin (e : exn).

Definition _required_keys : list string := ["main_path"; "app_path"; "app_name"].

(** [config[key].is_dir()], for a key the configuration holds: a [str]
    has no such method, and a [Path] is looked up among the
    directories of the disk. *)
Definition is_dir_at (dirs : gset string) (config : gmap string value)
    (key : string) : error + bool :=
  match config !! key with
  | Some (VPath p) => inr (bool_decide (p ∈ dirs))
  | Some (VStr _) => inl (Builtin AttributeError)
  | None => inl (Builtin KeyError)
  end.

(** [_check_config_valid] *)
Definition _check_config_valid (dirs : gset string)
    (config : option (gmap string value)) : error + unit :=
  match config with
  | None => inl MooseConfigError
  | Some config =>
      if forallb (λ kk, bool_decide (is_Some (config !! kk))) _required_keys
      then
        match is_dir_at dirs config "main_path" with
        | inl e => inl e
        | inr false => inl MooseConfigError
        | inr true =>
            match is_dir_at dirs config "app_path" with
            | inl e => inl e
            | inr false => inl MooseConfigError
            | inr true => inr ()
            end
        end
      else inl MooseConfigError
  end.

(** The object: its [_config] attribute. *)
Record t : Type := { _config : option (gmap string value) }.

(** [__init__] *)
Definition init (dirs : gset string) (config : option (gmap string value))
  : error + t :=
  match config with
  | Some _ =>
      match _check_config_valid dirs config with
      | inl e => inl e
      | inr _ => inr {| _config := config |}
      end
  | None => inr {| _config := config |}
  end.

(** [get_config] *)
Definition get_config (dirs : gset string) (self : t)
  : error + gmap string value :=
  match _check_config_valid dirs (_config self) with
  | inl e => inl e
  | inr _ =>
      match _config self with
      | Some config => inr config
      | None => inl MooseConfigError
      end
  end.

(** [convert_path_to_str] *)
Definition convert_path_to_str (in_config : option (gmap string value))
  : option (gmap string string) :=
  match in_config with
  | None => None
  | Some in_config => Some (str <$> in_config)
  end.

(** [convert_str_to_path] *)
Definition convert_str_to_path (norm : string → string)
    (in_config : option (gmap string string)) : option (gmap string value) :=
  match in_config with
  | None => None
  | Some in_config =>
      Some (map_imap (λ kk s, Some (if contains "path" kk
                                    then Path norm s
                                    else VStr s)) in_config)
  end.

(** A configuration as [convert_str_to_path] builds it: a key holds a
    path, in normal form, exactly when its name contains [path]. *)
Definition typed_by_key (norm : string → string) (config : gmap string value)
  : Prop :=
  map_Forall (λ kk v,
    match v with
    | VPath p => contains "path" kk = true ∧ norm p = p
    | VStr _ => contains "path" kk = false
    end) config.

(** A sample configuration and disk. *)
Definition sample : gmap string value :=
  list_to_map [("main_path", VPath "/home/moose");
               ("app_path", VPath "/home/proteus");
               ("app_name", VStr "proteus-opt")].

Definition sample_dirs : gset string :=
  {["/home/moose"; "/home/proteus"]}.

End MooseConfig.

(** * Properties *)

(** ** The model on the sample files *)

Example get_key_disp_y :
  get_key "disp_y" ["disp_x"; "disp_y"] "vals_nod_var" = Some "vals_nod_var2".
Proof. reflexivity. Qed.

Example connect_key_tenth : connect_key 9 = "connect10".
Proof. reflexivity. Qed.

Example path_suffix_samples :
  path_suffix "out/mech_out.e" = ".e"
  ∧ path_suffix "out.d/mech" = ""
  ∧ path_suffix "out/.hidden" = ""
  ∧ path_suffix "out/stdout.processor.0" = ".0".
Proof. by vm_compute. Qed.

(** A plane problem: the [z] column is zero. *)
Example get_coords_mech :
  get_coords mech
  = Ok (Mat 6 3 [[0; 0; 0]; [1; 0; 0]; [2; 0; 0];
                 [0; 1; 0]; [1; 1; 0]; [2; 1; 0]]%float).
Proof. reflexivity. Qed.

(** The strain is stored for block 1 only; block 0 reads as empty. *)
Example get_elem_vars_block_0 :
  get_elem_vars mech (Some [("strain_xx", 0%Z)])
  = Ok (Some {[("strain_xx", 0%Z) := np_empty]}).
Proof. reflexivity. Qed.

Example init_samples :
  init disk "out/mech_out.e" = Ok mech
  ∧ init disk "out/missing.e" = Raise FileNotFoundError
  ∧ init disk "out/missing.nc" = Raise FileNotFoundError
  ∧ init disk "out/stdout.processor.0" = Raise OSError
  ∧ init disk "out" = Raise FileNotFoundError
  ∧ init disk "out/archive.e" = Raise OSError.
Proof. by vm_compute. Qed.

(** ** Loops *)

(** A loop whose body never raises on the items it meets is a fold. *)
Lemma for_each_ok {A S : Type} (xs : list A) (body : S → A → result S)
    (f : S → A → S) (s : S) :
  (∀ s x, x ∈ xs → body s x = Ok (f s x)) →
  for_each xs body s = Ok (foldl f s xs).
Proof.
  revert s. induction xs as [|x xs IH]; intros s Hbody; simpl; [done|].
  rewrite Hbody by left. simpl. apply IH.
  intros s' y Hy. apply Hbody. by right.
Qed.

(** A loop whose body raises on some item raises. *)
Lemma for_each_raises {A S : Type} (xs : list A) (body : S → A → result S)
    (x : A) (s : S) :
  x ∈ xs →
  (∀ s, ∃ e, body s x = Raise e) →
  ∃ e, for_each xs body s = Raise e.
Proof.
  intros Hx Hbody. revert s.
  induction xs as [|y xs IH]; intros s; [by apply elem_of_nil in Hx|].
  simpl. apply elem_of_cons in Hx as [<-|Hx].
  - destruct (Hbody s) as [e ->]. by exists e.
  - destruct (body s y) as [s'|e]; simpl; [by apply IH | by exists e].
Qed.

(** The dictionary a loop [for k in keys: d[k] = g(k)] builds. *)
Lemma foldl_insert_lookup `{Countable K} {V : Type} (g : K → V)
    (keys : list K) (d : gmap K V) (k : K) :
  foldl (λ d k, <[k := g k]> d) d keys !! k
  = if decide (k ∈ keys) then Some (g k) else d !! k.
Proof.
  revert d. induction keys as [|k' keys IH]; intros d.
  - case_decide as Hin; [by apply elem_of_nil in Hin | done].
  - cbn [foldl]. rewrite IH.
    destruct (decide (k ∈ keys)) as [Hin|Hnin].
    + rewrite decide_True; [done | by right].
    + destruct (decide (k' = k)) as [->|Hne].
      * rewrite decide_True by left. apply lookup_insert_eq.
      * rewrite decide_False; [by rewrite lookup_insert_ne|].
        intros [?|?]%elem_of_cons; congruence.
Qed.

Lemma foldl_insert_dom `{Countable K} {V : Type} (g : K → V) (keys : list K) :
  dom (foldl (λ d k, <[k := g k]> d) (∅ : gmap K V) keys) = list_to_set keys.
Proof.
  apply set_eq. intros k. rewrite elem_of_dom, foldl_insert_lookup.
  rewrite elem_of_list_to_set. destruct (decide (k ∈ keys)) as [Hin|Hnin].
  - split; [done | by eexists].
  - rewrite lookup_empty. split; [by intros [? ?] | done].
Qed.

(** ** Name resolution *)

Lemma where_from_nil (i : nat) (all_names : list string) (name : string) :
  where_from i all_names name = [] ↔ name ∉ all_names.
Proof.
  revert i. induction all_names as [|x rest IH]; intros i; simpl.
  - split; [intros _; apply not_elem_of_nil | done].
  - destruct (decide (x = name)) as [->|Hne].
    + split; [done | intros Hnin; exfalso; apply Hnin; left].
    + rewrite IH, not_elem_of_cons.
      split; [intros ?; split; [congruence | done] | by intros [_ ?]].
Qed.

(** The head of [np.where(...)[0]] is the first occurrence. *)
Lemma where_from_head (i : nat) (all_names : list string) (name : string)
    (j : nat) (js : list nat) :
  where_from i all_names name = j :: js →
  ∃ k, j = i + k ∧ all_names !! k = Some name
       ∧ ∀ k', k' < k → all_names !! k' ≠ Some name.
Proof.
  revert i. induction all_names as [|x rest IH]; intros i; simpl; [done|].
  destruct (decide (x = name)) as [->|Hne].
  - intros [= <- _]. exists 0. split_and!; [lia | done | lia].
  - intros (k & -> & Hk & Hfirst)%IH. exists (S k). split_and!; [lia | done |].
    intros [|k'] Hlt; simpl; [congruence | apply Hfirst; lia].
Qed.

Lemma get_key_None (name : string) (all_names : list string) (key_tag : string) :
  get_key name all_names key_tag = None ↔ name ∉ all_names.
Proof.
  unfold get_key, np_where. rewrite <- (where_from_nil 0).
  by destruct (where_from 0 all_names name).
Qed.

Lemma get_key_Some (name : string) (all_names : list string) (key_tag : string) :
  name ∈ all_names →
  ∃ i, all_names !! i = Some name
       ∧ (∀ j, j < i → all_names !! j ≠ Some name)
       ∧ get_key name all_names key_tag = Some (key_tag +:+ pretty (i + 1)).
Proof.
  intros Hin. unfold get_key, np_where.
  destruct (where_from 0 all_names name) as [|j js] eqn:Hw.
  - by apply where_from_nil in Hw.
  - apply where_from_head in Hw as (k & -> & Hk & Hfirst).
    exists k. by split_and!.
Qed.

(** The first occurrence is unique, so the key of a declared name is
    fixed by its position. *)
Lemma first_occurrence_unique (all_names : list string) (name : string) (i j : nat) :
  all_names !! i = Some name → (∀ k, k < i → all_names !! k ≠ Some name) →
  all_names !! j = Some name → (∀ k, k < j → all_names !! k ≠ Some name) →
  i = j.
Proof.
  intros Hi Hfi Hj Hfj.
  destruct (Nat.lt_trichotomy i j) as [Hlt|[->|Hlt]]; [|done|].
  - by destruct (Hfj i Hlt).
  - by destruct (Hfi j Hlt).
Qed.

(** C6. [get_key] returns the key tag followed by the 1-based position of
    the first occurrence of the name in the declared list when the name
    is declared, and [None], without raising, when it is not. *)
Theorem get_key_first_occurrence (name : string) (all_names : list string)
    (key_tag : string) :
  (name ∈ all_names →
   ∃ i, all_names !! i = Some name
        ∧ (∀ j, j < i → all_names !! j ≠ Some name)
        ∧ get_key name all_names key_tag = Some (key_tag +:+ pretty (i + 1)))
  ∧ (name ∉ all_names → get_key name all_names key_tag = None).
Proof.
  split.
  - apply get_key_Some.
  - apply get_key_None.
Qed.

Lemma get_key_first_occurrence_witness :
  (∃ i, ["disp_x"; "disp_y"; "disp_x"] !! i = Some "disp_y"
        ∧ (∀ j, j < i → ["disp_x"; "disp_y"; "disp_x"] !! j ≠ Some "disp_y")
        ∧ get_key "disp_y" ["disp_x"; "disp_y"; "disp_x"] "vals_nod_var"
          = Some ("vals_nod_var" +:+ pretty (i + 1)))
  ∧ get_key "temp" ["disp_x"; "disp_y"; "disp_x"] "vals_nod_var" = None.
Proof.
  split.
  - apply (proj1 (get_key_first_occurrence "disp_y" ["disp_x"; "disp_y"; "disp_x"] _)).
    right; left.
  - apply (proj2 (get_key_first_occurrence "temp" ["disp_x"; "disp_y"; "disp_x"] _)).
    apply (bool_decide_unpack _). vm_compute. exact I.
Defined.

(** ** Time *)

(** C10. Without a [time_whole] entry [get_time] returns the empty
    sequence; with one it returns exactly the stored sequence. *)
Theorem get_time_stored_or_empty (self : ExodusReader) :
  (variables (_data self) !! "time_whole" = None → get_time self = np_empty)
  ∧ (∀ a, variables (_data self) !! "time_whole" = Some a → get_time self = a).
Proof.
  unfold get_time. split.
  - by intros ->.
  - by intros a ->.
Qed.

Lemma get_time_stored_or_empty_witness :
  get_time empty_x = np_empty ∧ get_time mech = Vec [0; 0.5]%float.
Proof.
  split.
  - apply (proj1 (get_time_stored_or_empty empty_x)). reflexivity.
  - apply (proj2 (get_time_stored_or_empty mech)). reflexivity.
Defined.

(** ** Side sets *)

Lemma get_sidesets_loop (self : ExodusReader) (all_names names : list string)
    (d : gmap (string * string) ndarray) :
  foldl (λ side_sets nn,
           <[(nn, "elem") := get_var self (get_key nn all_names "elem_ss")]>
             (<[(nn, "node") := get_var self (get_key nn all_names "node_ns")]>
                side_sets)) d names
  = foldl (λ d k, <[k := sideset_value self all_names k]> d) d
          (names ≫= sideset_keys).
Proof.
  revert d. induction names as [|nn names IH]; intros d; [done|].
  cbn [foldl]. rewrite IH. done.
Qed.

(** What [get_sidesets] binds to the two keys of a requested name. *)
Lemma get_sidesets_lookup (self : ExodusReader) (all_names names : list string)
    (nn kind : string) :
  get_sideset_names self = Some all_names →
  nn ∈ names → kind ∈ ["node"; "elem"] →
  ∃ side_sets, get_sidesets self (Some names) = Some side_sets
    ∧ side_sets !! (nn, kind) = Some (sideset_value self all_names (nn, kind)).
Proof.
  intros Hall Hnn Hkind. unfold get_sidesets. rewrite Hall.
  eexists. split; [done|].
  rewrite get_sidesets_loop, foldl_insert_lookup.
  rewrite decide_True; [done|].
  apply list_elem_of_bind. exists nn. split; [|done].
  unfold sideset_keys.
  apply elem_of_cons in Hkind as [->|Hkind]; [left|].
  apply list_elem_of_singleton in Hkind as ->. right; left.
Qed.

(** C9. A requested side-set name that the declared side-set table does
    not hold gets, without any exception, both its [(name, 'node')] and
    its [(name, 'elem')] key, each bound to an empty array. *)
Theorem get_sidesets_absent_name (self : ExodusReader)
    (all_names names : list string) (nn : string) :
  get_sideset_names self = Some all_names →
  nn ∈ names →
  nn ∉ all_names →
  ∃ side_sets, get_sidesets self (Some names) = Some side_sets
    ∧ side_sets !! (nn, "node") = Some np_empty
    ∧ side_sets !! (nn, "elem") = Some np_empty.
Proof.
  intros Hall Hnn Habsent.
  destruct (get_sidesets_lookup self all_names names nn "node" Hall Hnn)
    as (d & Hd & Hnode); [left|].
  destruct (get_sidesets_lookup self all_names names nn "elem" Hall Hnn)
    as (d' & Hd' & Helem); [right; left|].
  rewrite Hd in Hd'. injection Hd' as <-.
  exists d. split_and!; [done| |].
  - rewrite Hnode. unfold sideset_value. cbn [fst snd].
    by rewrite (proj2 (get_key_None nn all_names _) Habsent).
  - rewrite Helem. unfold sideset_value. cbn [fst snd].
    by rewrite (proj2 (get_key_None nn all_names _) Habsent).
Qed.

Lemma get_sidesets_absent_name_witness :
  ∃ side_sets, get_sidesets mech (Some ["bottom"; "left"]) = Some side_sets
    ∧ side_sets !! ("left", "node") = Some np_empty
    ∧ side_sets !! ("left", "elem") = Some np_empty.
Proof.
  apply (get_sidesets_absent_name mech ["bottom"; "top"] ["bottom"; "left"] "left").
  - reflexivity.
  - right; left.
  - apply (bool_decide_unpack _). vm_compute. exact I.
Defined.

(** ** Elemental variables *)

Lemma get_elem_vars_declared (self : ExodusReader) (all_names : list string)
    (names_blocks : list (string * Z)) :
  get_elem_var_names self = Some all_names →
  (∀ nb, nb ∈ names_blocks → nb.1 ∈ all_names) →
  get_elem_vars self (Some names_blocks)
  = Ok (Some (foldl (λ d k, <[k := elem_value self all_names k]> d) ∅ names_blocks)).
Proof.
  intros Hall Hdecl. unfold get_elem_vars. rewrite Hall.
  erewrite for_each_ok; [done|].
  intros vars nb Hnb. unfold elem_value.
  destruct (get_key_Some nb.1 all_names "vals_elem_var") as (i & _ & _ & ->);
    [by apply Hdecl | done].
Qed.

(** When every requested elemental name is declared, a requested
    (name, block) pair whose key [vals_elem_var<idx>eb<block>] is not in
    the file is a key of the returned mapping, bound to an empty table,
    and no exception is raised. *)
Theorem get_elem_vars_unpopulated_block (self : ExodusReader)
    (all_names : list string) (names_blocks : list (string * Z))
    (name : string) (block : Z) (i : nat) :
  get_elem_var_names self = Some all_names →
  (∀ nb, nb ∈ names_blocks → nb.1 ∈ all_names) →
  (name, block) ∈ names_blocks →
  all_names !! i = Some name →
  (∀ j, j < i → all_names !! j ≠ Some name) →
  variables (_data self)
    !! (("vals_elem_var" +:+ pretty (i + 1)) +:+ ("eb" +:+ pretty block)) = None →
  ∃ vars, get_elem_vars self (Some names_blocks) = Ok (Some vars)
    ∧ vars !! (name, block) = Some np_empty.
Proof.
  intros Hall Hdecl Hin Hi Hfirst Hnodata.
  rewrite (get_elem_vars_declared self all_names) by done.
  eexists. split; [done|].
  rewrite foldl_insert_lookup, decide_True by done.
  unfold elem_value. cbn [fst snd].
  destruct (get_key_Some name all_names "vals_elem_var") as (i' & Hi' & Hfirst' & ->).
  { by apply (Hdecl (name, block)). }
  rewrite (first_occurrence_unique all_names name i' i) by done.
  unfold get_var. by rewrite Hnodata.
Qed.

Lemma get_elem_vars_unpopulated_block_witness :
  ∃ vars, get_elem_vars mech (Some [("strain_xx", 1%Z); ("strain_xx", 0%Z)])
          = Ok (Some vars)
    ∧ vars !! ("strain_xx", 0%Z) = Some np_empty.
Proof.
  apply (get_elem_vars_unpopulated_block mech ["strain_xx"]
           [("strain_xx", 1%Z); ("strain_xx", 0%Z)] "strain_xx" 0%Z 0).
  - reflexivity.
  - intros nb Hnb. apply list_elem_of_singleton.
    apply elem_of_cons in Hnb as [->|Hnb]; [reflexivity|].
    apply list_elem_of_singleton in Hnb as ->. reflexivity.
  - right; left.
  - reflexivity.
  - intros j Hj. lia.
  - reflexivity.
Defined.

(** C8. The specification asks that a requested (name, block) pair whose
    name is declared and whose block holds no data be a key of the
    returned mapping, bound to an empty table, with no error raised.
    The reader does so only while every other requested name is declared
    too: asked for [strain_xx] in block 0, which meets those conditions,
    together with the undeclared [stress_xx], it returns no mapping and
    raises [TypeError]. *)
Theorem get_elem_vars_mixed_request_raises :
  get_elem_var_names mech = Some ["strain_xx"]
  ∧ variables (_data mech)
      !! (("vals_elem_var" +:+ pretty 1) +:+ ("eb" +:+ pretty 0%Z)) = None
  ∧ get_elem_vars mech (Some [("strain_xx", 0%Z); ("stress_xx", 1%Z)])
    = Raise TypeError.
Proof. split_and!; by vm_compute. Qed.

(** ** Requested names that the file does not declare *)

(** Reduce a goal about a loop that meets the item [x] of hypothesis
    [Hx] to the failure of the loop body on [x]. *)
Ltac loop_raises_at x Hx :=
  match goal with
  | |- context [for_each ?xs ?body ?s] =>
      let e := fresh "e" in
      let He := fresh "He" in
      destruct (for_each_raises xs body x s Hx) as [e He];
      [ | rewrite He; by exists e ]
  end.

Lemma get_node_vars_undeclared_raises (self : ExodusReader)
    (names : list string) (nn : string) :
  nn ∈ names →
  (∀ all_names, get_node_var_names self = Some all_names → nn ∉ all_names) →
  ∃ e, get_node_vars self (Some names) = Raise e.
Proof.
  intros Hnn Habsent. unfold get_node_vars.
  loop_raises_at nn Hnn.
  intros vars. exists IndexError.
  destruct (get_node_var_names self) as [all_names|]; simpl; [|done].
  unfold np_where.
  by rewrite (proj2 (where_from_nil 0 all_names nn) (Habsent _ eq_refl)).
Qed.

Lemma get_elem_vars_undeclared_raises (self : ExodusReader)
    (all_names : list string) (names_blocks : list (string * Z))
    (nn : string) (block : Z) :
  get_elem_var_names self = Some all_names →
  (nn, block) ∈ names_blocks →
  nn ∉ all_names →
  ∃ e, get_elem_vars self (Some names_blocks) = Raise e.
Proof.
  intros Hall Hnn Habsent. unfold get_elem_vars. rewrite Hall.
  loop_raises_at (nn, block) Hnn.
  intros vars. exists TypeError. cbn [fst].
  by rewrite (proj2 (get_key_None nn all_names _) Habsent).
Qed.

Lemma get_glob_vars_undeclared_raises (self : ExodusReader)
    (all_names names : list string) (nn : string) :
  get_glob_var_names self = Some all_names →
  nn ∈ names →
  nn ∉ all_names →
  ∃ e, get_glob_vars self (Some names) = Raise e.
Proof.
  intros Hall Hnn Habsent. unfold get_glob_vars. rewrite Hall.
  loop_raises_at nn Hnn.
  intros vars. unfold np_where.
  rewrite (proj2 (where_from_nil 0 all_names nn) Habsent).
  destruct (variables (_data self) !! "vals_glo_var"); by eexists.
Qed.

(** C1. The specification asks that a requested variable name the file
    does not declare be a key of the returned mapping, bound to a missing
    marker, and that nothing be raised.  The reader raises instead: on
    the sample file, asking for the undeclared nodal variable [temp], the
    undeclared elemental variable [stress_xx] or the undeclared global
    variable [energy] ends in [IndexError], [TypeError] and [IndexError]. *)
Theorem undeclared_name_raises :
  get_node_vars mech (Some ["disp_x"; "temp"]) = Raise IndexError
  ∧ get_elem_vars mech (Some [("stress_xx", 1%Z)]) = Raise TypeError
  ∧ get_glob_vars mech (Some ["energy"]) = Raise IndexError.
Proof. split_and!; by vm_compute. Qed.

(** ** Reading everything *)

Lemma get_all_node_vars_declared (self : ExodusReader) (all_names : list string) :
  get_node_var_names self = Some all_names →
  ∃ vars, get_all_node_vars self = Ok (Some vars)
    ∧ dom vars = list_to_set all_names.
Proof.
  intros Hall. unfold get_all_node_vars, get_node_vars. rewrite Hall.
  set (g := λ nn : string,
         match np_where all_names nn with
         | [] => np_empty
         | i :: _ => get_var self (Some ("vals_nod_var" +:+ pretty (i + 1)))
         end).
  erewrite (for_each_ok _ _ (λ d nn, <[nn := g nn]> d)).
  - eexists. split; [done|]. apply foldl_insert_dom.
  - intros vars nn Hnn. unfold g, np_where_opt, np_where.
    destruct (where_from 0 all_names nn) eqn:Hw; [|done].
    by apply where_from_nil in Hw.
Qed.

(** The list of pairs the nested loop of [get_elem_var_names_and_blocks]
    appends. *)
Lemma names_blocks_loop (names : list string) (blocks : list Z)
    (acc : list (string * Z)) :
  foldl (λ (names_blocks : list (string * Z)) nn,
           foldl (λ names_blocks bb, (names_blocks ++ [(nn, bb)])%list)
                 names_blocks blocks) acc names
  = (acc ++ (names ≫= λ nn, pair nn <$> blocks))%list.
Proof.
  assert (Hinner : ∀ nn (bs : list Z) (acc : list (string * Z)),
    foldl (λ names_blocks bb, (names_blocks ++ [(nn, bb)])%list) acc bs
    = (acc ++ (pair nn <$> bs))%list).
  { intros nn bs. induction bs as [|b bs IH]; intros acc'; simpl.
    - by rewrite app_nil_r.
    - by rewrite IH, <- app_assoc. }
  revert acc. induction names as [|nn names IH]; intros acc; simpl.
  - by rewrite app_nil_r.
  - by rewrite Hinner, IH, <- app_assoc.
Qed.

Lemma get_elem_var_names_and_blocks_declared (self : ExodusReader)
    (eb_names all_names : list string) :
  get_names self (Some "eb_names") = Some eb_names →
  get_elem_var_names self = Some all_names →
  ∃ names_blocks,
    get_elem_var_names_and_blocks self = Ok (Some names_blocks)
    ∧ ∀ nn bb, (nn, bb) ∈ names_blocks
        ↔ nn ∈ all_names ∧ (1 ≤ bb ≤ Z.of_nat (length eb_names))%Z.
Proof.
  intros Heb Hall. unfold get_elem_var_names_and_blocks, get_num_elem_blocks.
  rewrite Heb. simpl. rewrite Hall.
  eexists. split; [done|]. intros nn bb.
  rewrite names_blocks_loop, app_nil_l, list_elem_of_bind.
  split.
  - intros (nn' & Hpair & Hnn').
    apply list_elem_of_fmap in Hpair as (bb' & [= -> ->] & Hbb).
    split; [done|].
    apply list_elem_of_fmap in Hbb as (ii & -> & Hii%elem_of_seq). lia.
  - intros [Hnn Hbb]. exists nn. split; [|done].
    apply list_elem_of_fmap. exists bb. split; [done|].
    apply list_elem_of_fmap. exists (Z.to_nat bb - 1). split; [lia|].
    apply elem_of_seq. lia.
Qed.

Lemma get_all_glob_vars_declared (self : ExodusReader) (all_names : list string)
    (nrows ncols : nat) (rows : list (list float)) :
  get_glob_var_names self = Some all_names →
  variables (_data self) !! "vals_glo_var" = Some (Mat nrows ncols rows) →
  (length all_names ≤ ncols)%nat →
  ∃ vars, get_all_glob_vars self = Ok (Some vars)
    ∧ dom vars = list_to_set all_names.
Proof.
  intros Hall Htab Hcols. unfold get_all_glob_vars, get_glob_vars.
  rewrite Hall, Htab.
  set (g := λ nn : string,
         match np_where all_names nn with
         | [] => np_empty
         | i :: _ => Vec (column i rows)
         end).
  erewrite (for_each_ok _ _ (λ d nn, <[nn := g nn]> d)).
  - eexists. split; [done|]. apply foldl_insert_dom.
  - intros vars nn Hnn. unfold g, np_where.
    destruct (where_from 0 all_names nn) as [|i js] eqn:Hw.
    { by apply where_from_nil in Hw. }
    apply where_from_head in Hw as (k & -> & Hk%lookup_lt_Some & _).
    unfold take_column. simpl.
    destruct (Nat.ltb_spec k ncols) as [_|Hge]; [done | lia].
Qed.

Lemma get_connectivity_declared (self : ExodusReader) (eb_names : list string) :
  get_names self (Some "eb_names") = Some eb_names →
  ∃ connect, get_connectivity self = Ok connect.
Proof.
  intros Heb. unfold get_connectivity, get_connectivity_names, get_num_elem_blocks.
  rewrite Heb. simpl. by eexists.
Qed.

(** X12. On a file that declares the block table and all three variable name
    tables, whose global table has a column per declared global name and
    whose coordinates can be read, [read_all_sim_data] returns a record
    whose keys are the declared names: the nodal names, the global names,
    and every elemental name paired with every block number from 1 to
    the block count. *)
Lemma read_all_sim_data_keys (self : ExodusReader)
    (eb_names nod_names elem_names glo_names : list string)
    (c : ndarray) (nrows ncols : nat) (rows : list (list float)) :
  get_names self (Some "eb_names") = Some eb_names →
  get_node_var_names self = Some nod_names →
  get_elem_var_names self = Some elem_names →
  get_glob_var_names self = Some glo_names →
  variables (_data self) !! "vals_glo_var" = Some (Mat nrows ncols rows) →
  (length glo_names ≤ ncols)%nat →
  get_coords self = Ok c →
  ∃ data nv ev gv,
    read_all_sim_data self = Ok data
    ∧ node_vars data = Some nv ∧ dom nv = list_to_set nod_names
    ∧ elem_vars data = Some ev
    ∧ (∀ nn bb, (nn, bb) ∈ dom ev
         ↔ nn ∈ elem_names ∧ (1 ≤ bb ≤ Z.of_nat (length eb_names))%Z)
    ∧ glob_vars data = Some gv ∧ dom gv = list_to_set glo_names.
Proof.
  intros Heb Hnod Helem Hglo Htab Hcols Hcoords.
  destruct (get_connectivity_declared self eb_names Heb) as [cn Hcn].
  destruct (get_all_node_vars_declared self nod_names Hnod) as (nv & Hnv & Hdnv).
  destruct (get_elem_var_names_and_blocks_declared self eb_names elem_names Heb Helem)
    as (nbs & Hnbs & Hmem).
  destruct (get_all_glob_vars_declared self glo_names nrows ncols rows Hglo Htab Hcols)
    as (gv & Hgv & Hdgv).
  assert (Hev : get_all_elem_vars self
    = Ok (Some (foldl (λ d k, <[k := elem_value self elem_names k]> d) ∅ nbs))).
  { unfold get_all_elem_vars. rewrite Hnbs. simpl.
    apply get_elem_vars_declared; [done|].
    intros [nn bb] Hin. by apply Hmem in Hin as [? _]. }
  unfold read_all_sim_data. rewrite Hcoords, Hcn, Hnv, Hev, Hgv. simpl.
  eexists _, nv, _, gv. split_and!; try done.
  intros nn bb. by rewrite foldl_insert_dom, elem_of_list_to_set.
Qed.

(** C2. The specification asks that [read_all_sim_data] return, for every
    valid file, a record whose keys are the declared names.  On a file
    with nodal output only, which declares no elemental name table, the
    reader returns no record: [get_elem_var_names_and_blocks] tests the
    method [get_elem_var_names] itself against [None] and goes on to
    iterate over the missing table, a [TypeError]. *)
Theorem read_all_sim_data_nodal_only_raises :
  get_elem_var_names nodal_only = None
  ∧ get_elem_var_names_and_blocks nodal_only = Raise TypeError
  ∧ read_all_sim_data nodal_only = Raise TypeError.
Proof. split_and!; by vm_compute. Qed.

(** ** Construction *)

(** An existing netCDF file is opened whatever its extension. *)
Lemma init_opens_netcdf_file (fs : FileSystem) (p : string) (d : Dataset) :
  netcdf_files fs !! p = Some d →
  init fs p = Ok {| _exodus_path := p; _data := d |}.
Proof.
  intros Hd. unfold init, is_file, nc_Dataset. rewrite Hd.
  rewrite bool_decide_eq_true_2; [done | by eexists].
Qed.

(** C4. The specification asks that construction fail with "file not
    found" for every path that is not an existing file with the [.e]
    extension.  The guard joins its two tests with [and], so an existing
    netCDF file with another extension is opened. *)
Theorem init_accepts_other_extension :
  is_file disk "out/mech_out.nc" = true
  ∧ path_suffix "out/mech_out.nc" = ".nc"
  ∧ init disk "out/mech_out.nc"
    = Ok {| _exodus_path := "out/mech_out.nc"; _data := mech_data |}.
Proof. split_and!; by vm_compute. Qed.

(** ** Coordinates *)

Lemma axis_empty_shape0 (self : ExodusReader) (key : string) :
  axis_empty self key ↔ shape0 (get_var self (Some key)) = 0.
Proof.
  unfold axis_empty, get_var.
  by destruct (variables (_data self) !! key).
Qed.

Lemma axis_empty_absent (self : ExodusReader) (key : string) :
  variables (_data self) !! key = None → axis_empty self key.
Proof. unfold axis_empty. by intros ->. Qed.

(** [np.vstack] raises nothing but [ValueError]. *)
Lemma np_vstack3_raises (x y z : ndarray) (e : exn) :
  np_vstack3 x y z = Raise e → e = ValueError.
Proof.
  unfold np_vstack3.
  destruct (atleast_2d x) as [[r1 c1] m1], (atleast_2d y) as [[r2 c2] m2],
    (atleast_2d z) as [[r3 c3] m3].
  destruct (Nat.eqb c1 c2 && Nat.eqb c2 c3); congruence.
Qed.

(** C7, as amended. [get_coords] raises the "no spatial dimension"
    [RuntimeError] exactly when each of the three axes is absent from the
    file or has no entry; in particular it raises it when all three are
    absent. *)
Theorem get_coords_no_dimension_iff (self : ExodusReader) :
  get_coords self = Raise RuntimeError
  ↔ axis_empty self "coordx" ∧ axis_empty self "coordy" ∧ axis_empty self "coordz".
Proof.
  rewrite !axis_empty_shape0. unfold get_coords.
  destruct (Nat.eqb_spec
    (shape0 (get_var self (Some "coordx"))
       `max` (shape0 (get_var self (Some "coordy"))
                `max` shape0 (get_var self (Some "coordz")))) 0) as [Hz|Hnz].
  - split; [intros _; lia | done].
  - split; [|lia].
    destruct (np_vstack3 _ _ _) as [stacked|e] eqn:Hstack; simpl; [done|].
    by rewrite (np_vstack3_raises _ _ _ _ Hstack).
Qed.

(** C7, the claim as stated fails: an axis that is present with no entry
    still raises the "no spatial dimension" error. *)
Lemma get_coords_present_empty_axis_raises :
  is_Some (variables (_data empty_x) !! "coordx")
  ∧ get_coords empty_x = Raise RuntimeError.
Proof. split; [by eexists | by vm_compute]. Qed.

Lemma map_nth_seq_id (l : list float) :
  map (λ i, nth i l 0%float) (seq 0 (length l)) = l.
Proof.
  apply (nth_ext _ _ (nth 0 l 0%float) 0%float).
  - by rewrite length_map, length_seq.
  - intros n. rewrite length_map, length_seq. intros Hn.
    rewrite (map_nth (λ i, nth i l 0%float) (seq 0 (length l)) 0 n).
    by rewrite seq_nth.
Qed.

(** The transpose of three stacked vectors of length [n]. *)
Lemma transpose_rows_3 (n : nat) (l0 l1 l2 : list float) :
  length l0 = n → length l1 = n → length l2 = n →
  length (transpose_rows n [l0; l1; l2]) = n
  ∧ (∀ r, r ∈ transpose_rows n [l0; l1; l2] → length r = 3)
  ∧ column 0 (transpose_rows n [l0; l1; l2]) = l0
  ∧ column 1 (transpose_rows n [l0; l1; l2]) = l1
  ∧ column 2 (transpose_rows n [l0; l1; l2]) = l2.
Proof.
  intros H0 H1 H2. unfold transpose_rows, column. split_and!.
  - by rewrite length_map, length_seq.
  - intros r Hr. apply list_elem_of_In, in_map_iff in Hr as (j & <- & _). done.
  - rewrite map_map. simpl. rewrite <- H0. apply map_nth_seq_id.
  - rewrite map_map. simpl. rewrite <- H1. apply map_nth_seq_id.
  - rewrite map_map. simpl. rewrite <- H2. apply map_nth_seq_id.
Qed.

(** A one-dimensional axis that is absent, empty or of length [n], as
    [get_var] reads it and [_expand_coord] pads it. *)
Lemma expand_axis (self : ExodusReader) (n : nat) (key : string) :
  0 < n →
  (variables (_data self) !! key = None
   ∨ ∃ l, variables (_data self) !! key = Some (Vec l) ∧ (l = [] ∨ length l = n)) →
  ∃ l l', get_var self (Some key) = Vec l
    ∧ (l = [] ∨ length l = n)
    ∧ _expand_coord (Vec l) n = Vec l'
    ∧ length l' = n
    ∧ (l = [] → l' = replicate n 0%float)
    ∧ (l ≠ [] → l' = l).
Proof.
  intros Hn Hfile.
  assert (∃ l, get_var self (Some key) = Vec l ∧ (l = [] ∨ length l = n))
    as (l & Hl & Hlen).
  { unfold get_var. destruct Hfile as [->|(l & -> & Hlen)].
    - exists []. by split; [|left].
    - by exists l. }
  exists l. unfold _expand_coord. simpl.
  destruct l as [|v l]; simpl.
  - exists (replicate n 0%float). rewrite length_replicate. by split_and!.
  - exists (v :: l). destruct Hlen as [?|Hlen]; [done|].
    split_and!; try done. by right.
Qed.

Lemma get_var_vec (self : ExodusReader) (key : string) (l : list float) :
  variables (_data self) !! key = Some (Vec l) → get_var self (Some key) = Vec l.
Proof. unfold get_var. by intros ->. Qed.

Lemma get_var_absent (self : ExodusReader) (key : string) :
  variables (_data self) !! key = None → get_var self (Some key) = Vec [].
Proof. unfold get_var. by intros ->. Qed.

(** What [get_coords] puts in the column of an axis, given the padded
    axis [l'] of [expand_axis]. *)
Lemma padded_axis_column (self : ExodusReader) (n : nat) (key : string)
    (l l' col : list float) :
  get_var self (Some key) = Vec l →
  (l = [] → l' = replicate n 0%float) →
  (l ≠ [] → l' = l) →
  col = l' →
  ((variables (_data self) !! key = None
    ∨ variables (_data self) !! key = Some (Vec []))
   → col = replicate n 0%float)
  ∧ (∀ l0, variables (_data self) !! key = Some (Vec l0) → l0 ≠ [] → col = l0).
Proof.
  intros Hl Hempty Hfull ->. split.
  - intros [Hnone|Hnil]; apply Hempty.
    + apply get_var_absent in Hnone. congruence.
    + apply get_var_vec in Hnil. congruence.
  - intros l0 Hl0%get_var_vec Hne.
    assert (l = l0) as -> by congruence. by apply Hfull.
Qed.

(** C3, as amended. For a file whose coordinate axes are one-dimensional,
    with at least one axis of length [n > 0] and every other axis absent,
    empty or of that length, [get_coords] returns an [n]-by-3 table; the
    column of an axis that is absent or empty is all zero, and the column
    of any other axis holds its stored values. *)
Theorem get_coords_table (self : ExodusReader) (n : nat) :
  0 < n →
  (∀ key, key ∈ coord_keys →
     variables (_data self) !! key = None
     ∨ ∃ l, variables (_data self) !! key = Some (Vec l)
            ∧ (l = [] ∨ length l = n)) →
  (∃ key l, key ∈ coord_keys
     ∧ variables (_data self) !! key = Some (Vec l) ∧ length l = n) →
  ∃ rows,
    get_coords self = Ok (Mat n 3 rows)
    ∧ length rows = n
    ∧ (∀ r, r ∈ rows → length r = 3)
    ∧ ∀ j key, coord_keys !! j = Some key →
        ((variables (_data self) !! key = None
          ∨ variables (_data self) !! key = Some (Vec []))
         → column j rows = replicate n 0%float)
        ∧ (∀ l, variables (_data self) !! key = Some (Vec l) → l ≠ []
             → column j rows = l).
Proof.
  intros Hn Haxes (key1 & l1 & Hkey1 & Hl1 & Hlen1).
  destruct (expand_axis self n "coordx" Hn) as (lx & lx' & Hx & Hlx & Hex & Hlx' & Hx0 & Hx1).
  { apply Haxes. unfold coord_keys. left. }
  destruct (expand_axis self n "coordy" Hn) as (ly & ly' & Hy & Hly & Hey & Hly' & Hy0 & Hy1).
  { apply Haxes. unfold coord_keys. right; left. }
  destruct (expand_axis self n "coordz" Hn) as (lz & lz' & Hz & Hlz & Hez & Hlz' & Hz0 & Hz1).
  { apply Haxes. unfold coord_keys. right; right; left. }
  assert (Hmax : length lx `max` (length ly `max` length lz) = n).
  { assert (length lx = n ∨ length ly = n ∨ length lz = n) as Hsome.
    { apply get_var_vec in Hl1. unfold coord_keys in Hkey1.
      apply elem_of_cons in Hkey1 as [->|Hkey1]; [left; congruence|].
      apply elem_of_cons in Hkey1 as [->|Hkey1]; [right; left; congruence|].
      apply list_elem_of_singleton in Hkey1 as ->. right; right; congruence. }
    assert (length lx = 0 ∨ length lx = n) by (destruct Hlx as [->|]; auto).
    assert (length ly = 0 ∨ length ly = n) by (destruct Hly as [->|]; auto).
    assert (length lz = 0 ∨ length lz = n) by (destruct Hlz as [->|]; auto).
    lia. }
  destruct (transpose_rows_3 n lx' ly' lz' Hlx' Hly' Hlz')
    as (Hrows & Hwidth & Hc0 & Hc1 & Hc2).
  exists (transpose_rows n [lx'; ly'; lz']).
  split_and!; [|done|done|].
  - unfold get_coords. rewrite Hx, Hy, Hz. cbn [shape0]. rewrite Hmax.
    destruct (Nat.eqb_spec n 0) as [?|_]; [lia|].
    rewrite Hex, Hey, Hez. unfold np_vstack3. cbn [atleast_2d].
    rewrite Hlx', Hly', Hlz', Nat.eqb_refl. done.
  - intros j key Hj. unfold coord_keys in Hj.
    destruct j as [|[|[|j]]]; simpl in Hj; [| | |done]; injection Hj as <-.
    + by apply (padded_axis_column self n "coordx" lx lx').
    + by apply (padded_axis_column self n "coordy" ly ly').
    + by apply (padded_axis_column self n "coordz" lz lz').
Qed.

Lemma get_coords_table_witness :
  ∃ rows,
    get_coords mech = Ok (Mat 6 3 rows)
    ∧ length rows = 6
    ∧ (∀ r, r ∈ rows → length r = 3)
    ∧ ∀ j key, coord_keys !! j = Some key →
        ((variables (_data mech) !! key = None
          ∨ variables (_data mech) !! key = Some (Vec []))
         → column j rows = replicate 6 0%float)
        ∧ (∀ l, variables (_data mech) !! key = Some (Vec l) → l ≠ []
             → column j rows = l).
Proof.
  apply (get_coords_table mech 6).
  - lia.
  - intros key Hkey. unfold coord_keys in Hkey.
    apply elem_of_cons in Hkey as [->|Hkey].
    { right. eexists. split; [reflexivity | right; reflexivity]. }
    apply elem_of_cons in Hkey as [->|Hkey].
    { right. eexists. split; [reflexivity | right; reflexivity]. }
    apply list_elem_of_singleton in Hkey as ->. left. reflexivity.
  - exists "coordx". eexists. split; [left | split; reflexivity].
Defined.

(** C3, the claim as stated fails: with the only declared axis empty, an
    axis is present and no table is returned. *)
Lemma get_coords_present_axis_no_table :
  is_Some (variables (_data empty_y) !! "coordy")
  ∧ ∀ table, get_coords empty_y ≠ Ok table.
Proof. split; [by eexists | by vm_compute]. Qed.

(** ** Connectivity *)

Lemma get_connectivity_names_loop (self : ExodusReader) (bbs : list nat)
    (acc : list string) :
  foldl (λ (names : list string) bb,
           let key := connect_key bb in
           if bool_decide (is_Some (variables (_data self) !! key))
           then (names ++ [key])%list
           else names) acc bbs
  = (acc ++ filter (λ key, is_Some (variables (_data self) !! key))
                  (connect_key <$> bbs))%list.
Proof.
  revert acc. induction bbs as [|bb bbs IH]; intros acc; simpl.
  - by rewrite app_nil_r.
  - rewrite IH. rewrite filter_cons. case_bool_decide as Hkey.
    + rewrite decide_True by done. by rewrite <- app_assoc.
    + by rewrite decide_False by done.
Qed.





(** * Further properties of the reader *)

(** ** Loops and keys *)

(** A loop that meets an item on which the body raises [e], and whose
    body raises nothing else, raises [e]. *)
Lemma for_each_raises_exn {A S : Type} (xs : list A) (body : S → A → result S)
    (x : A) (s : S) (e : exn) :
  x ∈ xs →
  (∀ s, body s x = Raise e) →
  (∀ s y e', body s y = Raise e' → e' = e) →
  for_each xs body s = Raise e.
Proof.
  intros Hx Hbody Honly.
  destruct (for_each_raises xs body x s Hx) as [e' He'].
  { intros s'. by exists e. }
  rewrite He'. f_equal. clear Hx Hbody x.
  revert s He'. induction xs as [|y xs IH]; intros s; simpl; [done|].
  destruct (body s y) as [s'|e''] eqn:Hy; simpl.
  - apply IH.
  - intros [= <-]. by apply (Honly s y).
Qed.

Lemma append_cancel_l (tag a b : string) : tag +:+ a = tag +:+ b → a = b.
Proof.
  induction tag as [|c tag IH]; simpl; [done|].
  intros [= Heq]. by apply IH.
Qed.

Lemma connect_key_inj (b1 b2 : nat) : connect_key b1 = connect_key b2 → b1 = b2.
Proof.
  unfold connect_key. intros Heq%append_cancel_l.
  apply (inj pretty) in Heq. lia.
Qed.

(** A key that [get_key] returns names the first position of the name. *)
Lemma get_key_Some_inv (name : string) (all_names : list string)
    (key_tag k : string) :
  get_key name all_names key_tag = Some k →
  ∃ i, all_names !! i = Some name
       ∧ (∀ j, j < i → all_names !! j ≠ Some name)
       ∧ k = key_tag +:+ pretty (i + 1).
Proof.
  unfold get_key, np_where.
  destruct (where_from 0 all_names name) as [|j js] eqn:Hw; [done|].
  intros [= <-]. apply where_from_head in Hw as (i & -> & Hi & Hfirst).
  exists i. by split_and!.
Qed.

Lemma np_where_first (all_names : list string) (name : string) (i : nat) :
  all_names !! i = Some name →
  (∀ j, j < i → all_names !! j ≠ Some name) →
  ∃ js, np_where all_names name = i :: js.
Proof.
  intros Hi Hfirst. unfold np_where.
  destruct (where_from 0 all_names name) as [|j js] eqn:Hw.
  - apply where_from_nil in Hw. destruct Hw.
    by apply list_elem_of_lookup_2 in Hi.
  - apply where_from_head in Hw as (k & -> & Hk & Hkfirst).
    exists js. f_equal. simpl.
    by apply (first_occurrence_unique all_names name).
Qed.

(** X1. Two declared names never resolve to the same key: a key that
    [get_key] returns under a tag determines the name. *)
Theorem get_key_inj (name1 name2 : string) (all_names : list string)
    (key_tag k : string) :
  get_key name1 all_names key_tag = Some k →
  get_key name2 all_names key_tag = Some k →
  name1 = name2.
Proof.
  intros (i1 & Hi1 & _ & ->)%get_key_Some_inv (i2 & Hi2 & _ & Heq)%get_key_Some_inv.
  apply append_cancel_l, (inj pretty) in Heq.
  assert (i1 = i2) as -> by lia. congruence.
Qed.

Lemma get_key_inj_witness : "disp_y" = "disp_y".
Proof.
  apply (get_key_inj "disp_y" "disp_y" ["disp_x"; "disp_y"] "vals_nod_var"
           "vals_nod_var2"); reflexivity.
Defined.

(** ** Nodal variables *)

Lemma get_node_vars_all_declared (self : ExodusReader) (names : list string) :
  (∀ nn, nn ∈ names → np_where_opt (get_node_var_names self) nn ≠ []) →
  get_node_vars self (Some names)
  = Ok (Some (foldl (λ d k, <[k := node_value self k]> d) ∅ names)).
Proof.
  intros Hdecl. unfold get_node_vars.
  erewrite (for_each_ok _ _ (λ d nn, <[nn := node_value self nn]> d)); [done|].
  intros vars nn Hnn. unfold node_value.
  specialize (Hdecl nn Hnn).
  by destruct (np_where_opt (get_node_var_names self) nn).
Qed.

Lemma get_node_vars_some_undeclared (self : ExodusReader) (names : list string)
    (nn : string) :
  nn ∈ names →
  np_where_opt (get_node_var_names self) nn = [] →
  get_node_vars self (Some names) = Raise IndexError.
Proof.
  intros Hnn Hnone. unfold get_node_vars.
  erewrite (for_each_raises_exn _ _ nn); [done | done | |].
  - intros vars. by rewrite Hnone.
  - intros vars y e'.
    destruct (np_where_opt (get_node_var_names self) y); [|done].
    by intros [= <-].
Qed.

(** X2. When every requested nodal name is declared, [get_node_vars]
    returns a mapping whose keys are exactly the requested names, each
    bound to what [get_var] reads under [vals_nod_var<k>], [k] being the
    1-based position of the first occurrence of the name. *)
Theorem get_node_vars_declared (self : ExodusReader)
    (all_names names : list string) :
  get_node_var_names self = Some all_names →
  (∀ nn, nn ∈ names → nn ∈ all_names) →
  ∃ vars, get_node_vars self (Some names) = Ok (Some vars)
    ∧ dom vars = list_to_set names
    ∧ ∀ nn i, nn ∈ names → all_names !! i = Some nn
        → (∀ j, j < i → all_names !! j ≠ Some nn)
        → vars !! nn = Some (get_var self (Some ("vals_nod_var" +:+ pretty (i + 1)))).
Proof.
  intros Hall Hdecl. eexists. split_and!.
  - apply get_node_vars_all_declared. intros nn Hnn. rewrite Hall. simpl.
    unfold np_where. rewrite where_from_nil. intros Hnin. by apply Hnin, Hdecl.
  - apply foldl_insert_dom.
  - intros nn i Hnn Hi Hfirst.
    rewrite foldl_insert_lookup, decide_True by done.
    unfold node_value. rewrite Hall. simpl.
    by destruct (np_where_first all_names nn i Hi Hfirst) as [js ->].
Qed.

Lemma get_node_vars_declared_witness :
  ∃ vars, get_node_vars mech (Some ["disp_y"]) = Ok (Some vars)
    ∧ dom vars = list_to_set ["disp_y"]
    ∧ ∀ nn i, nn ∈ ["disp_y"] → ["disp_x"; "disp_y"] !! i = Some nn
        → (∀ j, j < i → ["disp_x"; "disp_y"] !! j ≠ Some nn)
        → vars !! nn = Some (get_var mech (Some ("vals_nod_var" +:+ pretty (i + 1)))).
Proof.
  apply (get_node_vars_declared mech ["disp_x"; "disp_y"] ["disp_y"]).
  - reflexivity.
  - intros nn Hnn. apply list_elem_of_singleton in Hnn as ->. right; left.
Defined.

(** X3. The outcome of [get_node_vars] depends only on which names are
    requested, not on their order or repetition: two requests with the
    same members return the same mapping or raise the same error. *)
Theorem get_node_vars_same_names (self : ExodusReader) (names1 names2 : list string) :
  (∀ nn, nn ∈ names1 ↔ nn ∈ names2) →
  get_node_vars self (Some names1) = get_node_vars self (Some names2).
Proof.
  intros Hsame.
  destruct (decide (Forall (λ nn, np_where_opt (get_node_var_names self) nn ≠ [])
                           names1)) as [Hall|Hsome].
  - rewrite Forall_forall in Hall.
    rewrite (get_node_vars_all_declared self names1) by done.
    rewrite (get_node_vars_all_declared self names2)
      by (intros nn Hnn; by apply Hall, Hsame).
    do 2 f_equal. apply map_eq. intros k. rewrite !foldl_insert_lookup.
    destruct (decide (k ∈ names1)) as [H1|H1], (decide (k ∈ names2)) as [H2|H2];
      [done | | | done].
    + destruct H2. by apply Hsame.
    + destruct H1. by apply Hsame.
  - apply not_Forall_Exists in Hsome; [|apply _].
    apply Exists_exists in Hsome as (nn & Hnn & Hnone). simpl in Hnone.
    assert (np_where_opt (get_node_var_names self) nn = []) as Hnil.
    { destruct (np_where_opt (get_node_var_names self) nn); [done|].
      exfalso. by apply Hnone. }
    rewrite (get_node_vars_some_undeclared self names1 nn) by done.
    rewrite (get_node_vars_some_undeclared self names2 nn); [done | | done].
    by apply Hsame.
Qed.

Lemma get_node_vars_same_names_witness :
  get_node_vars mech (Some ["disp_y"; "disp_x"; "disp_y"])
  = get_node_vars mech (Some ["disp_x"; "disp_y"]).
Proof.
  apply (get_node_vars_same_names mech). intros nn.
  rewrite !elem_of_cons, !elem_of_nil. tauto.
Defined.

(** ** Elemental variables *)

(** X4. When the elemental name table exists and every requested name is
    declared, [get_elem_vars] returns a mapping whose keys are exactly
    the requested (name, block) pairs, each bound to what [get_var] reads
    under [vals_elem_var<k>eb<block>], [k] being the 1-based position of
    the first occurrence of the name. *)
Theorem get_elem_vars_declared_values (self : ExodusReader)
    (all_names : list string) (names_blocks : list (string * Z)) :
  get_elem_var_names self = Some all_names →
  (∀ nb, nb ∈ names_blocks → nb.1 ∈ all_names) →
  ∃ vars, get_elem_vars self (Some names_blocks) = Ok (Some vars)
    ∧ dom vars = list_to_set names_blocks
    ∧ ∀ nn bb i, (nn, bb) ∈ names_blocks → all_names !! i = Some nn
        → (∀ j, j < i → all_names !! j ≠ Some nn)
        → vars !! (nn, bb)
          = Some (get_var self
                    (Some (("vals_elem_var" +:+ pretty (i + 1))
                           +:+ ("eb" +:+ pretty bb)))).
Proof.
  intros Hall Hdecl. eexists. split_and!.
  - by apply (get_elem_vars_declared self all_names).
  - apply foldl_insert_dom.
  - intros nn bb i Hin Hi Hfirst.
    rewrite foldl_insert_lookup, decide_True by done.
    unfold elem_value, get_key. cbn [fst snd].
    by destruct (np_where_first all_names nn i Hi Hfirst) as [js ->].
Qed.

Lemma get_elem_vars_declared_values_witness :
  ∃ vars, get_elem_vars mech (Some [("strain_xx", 1%Z)]) = Ok (Some vars)
    ∧ dom vars = list_to_set [("strain_xx", 1%Z)]
    ∧ ∀ nn bb i, (nn, bb) ∈ [("strain_xx", 1%Z)] → ["strain_xx"] !! i = Some nn
        → (∀ j, j < i → ["strain_xx"] !! j ≠ Some nn)
        → vars !! (nn, bb)
          = Some (get_var mech
                    (Some (("vals_elem_var" +:+ pretty (i + 1))
                           +:+ ("eb" +:+ pretty bb)))).
Proof.
  apply (get_elem_vars_declared_values mech ["strain_xx"] [("strain_xx", 1%Z)]).
  - reflexivity.
  - intros nb Hnb. apply list_elem_of_singleton in Hnb as ->. left.
Defined.

(** ** Global variables *)

(** X5. When the global name table exists, every requested name is
    declared and the shared table [vals_glo_var] has a column for every
    declared name, [get_glob_vars] returns a mapping whose keys are
    exactly the requested names, each bound to the column of the shared
    table at the position of the first occurrence of the name. *)
Theorem get_glob_vars_declared (self : ExodusReader)
    (all_names names : list string) (nrows ncols : nat) (rows : list (list float)) :
  get_glob_var_names self = Some all_names →
  variables (_data self) !! "vals_glo_var" = Some (Mat nrows ncols rows) →
  (length all_names ≤ ncols)%nat →
  (∀ nn, nn ∈ names → nn ∈ all_names) →
  ∃ vars, get_glob_vars self (Some names) = Ok (Some vars)
    ∧ dom vars = list_to_set names
    ∧ ∀ nn i, nn ∈ names → all_names !! i = Some nn
        → (∀ j, j < i → all_names !! j ≠ Some nn)
        → vars !! nn = Some (Vec (column i rows)).
Proof.
  intros Hall Htab Hcols Hdecl. exists (foldl (λ d nn, <[nn := glob_value all_names rows nn]> d) ∅ names).
  split_and!.
  - unfold get_glob_vars. rewrite Hall, Htab.
    erewrite (for_each_ok _ _ (λ d nn, <[nn := glob_value all_names rows nn]> d));
      [done|].
    intros vars nn Hnn. unfold glob_value, np_where.
    destruct (where_from 0 all_names nn) as [|i js] eqn:Hw.
    { apply where_from_nil in Hw. destruct Hw. by apply Hdecl. }
    apply where_from_head in Hw as (k & -> & Hk%lookup_lt_Some & _).
    unfold take_column. simpl.
    destruct (Nat.ltb_spec k ncols) as [_|Hge]; [done | lia].
  - apply foldl_insert_dom.
  - intros nn i Hnn Hi Hfirst.
    rewrite foldl_insert_lookup, decide_True by done.
    unfold glob_value.
    by destruct (np_where_first all_names nn i Hi Hfirst) as [js ->].
Qed.

Lemma get_glob_vars_declared_witness :
  ∃ vars, get_glob_vars mech (Some ["react_y"]) = Ok (Some vars)
    ∧ dom vars = list_to_set ["react_y"]
    ∧ ∀ nn i, nn ∈ ["react_y"] → ["react_y"] !! i = Some nn
        → (∀ j, j < i → ["react_y"] !! j ≠ Some nn)
        → vars !! nn = Some (Vec (column i [[0]; [12.5]]%float)).
Proof.
  apply (get_glob_vars_declared mech ["react_y"] ["react_y"] 2 1).
  - reflexivity.
  - reflexivity.
  - simpl. lia.
  - intros nn Hnn. exact Hnn.
Defined.

(** X6. When the global name table exists but the file has no shared
    table [vals_glo_var], [get_glob_vars] returns the empty mapping for
    an empty request and raises [KeyError] for any other request, whether
    or not the requested names are declared. *)
Theorem get_glob_vars_no_table (self : ExodusReader)
    (all_names names : list string) :
  get_glob_var_names self = Some all_names →
  variables (_data self) !! "vals_glo_var" = None →
  get_glob_vars self (Some names)
  = match names with
    | [] => Ok (Some ∅)
    | _ :: _ => Raise KeyError
    end.
Proof.
  intros Hall Htab. unfold get_glob_vars. rewrite Hall, Htab.
  destruct names as [|nn names]; [done|]. done.
Qed.

Lemma get_glob_vars_no_table_witness :
  get_glob_vars no_glob_table (Some ["energy"; "react_y"]) = Raise KeyError.
Proof.
  apply (get_glob_vars_no_table no_glob_table ["react_y"] ["energy"; "react_y"]);
    reflexivity.
Defined.

(** ** Side sets *)

(** X7. For a requested side-set name that is declared, [get_sidesets]
    binds [(name, 'node')] to what [get_var] reads under [node_ns<k>] and
    [(name, 'elem')] to what it reads under [elem_ss<k>], [k] being the
    1-based position of the first occurrence of the name. *)
Theorem get_sidesets_declared (self : ExodusReader)
    (all_names names : list string) (nn : string) (i : nat) :
  get_sideset_names self = Some all_names →
  nn ∈ names →
  all_names !! i = Some nn →
  (∀ j, j < i → all_names !! j ≠ Some nn) →
  ∃ side_sets, get_sidesets self (Some names) = Some side_sets
    ∧ side_sets !! (nn, "node")
      = Some (get_var self (Some ("node_ns" +:+ pretty (i + 1))))
    ∧ side_sets !! (nn, "elem")
      = Some (get_var self (Some ("elem_ss" +:+ pretty (i + 1)))).
Proof.
  intros Hall Hnn Hi Hfirst.
  destruct (get_sidesets_lookup self all_names names nn "node" Hall Hnn)
    as (d & Hd & Hnode); [left|].
  destruct (get_sidesets_lookup self all_names names nn "elem" Hall Hnn)
    as (d' & Hd' & Helem); [right; left|].
  rewrite Hd in Hd'. injection Hd' as <-.
  destruct (np_where_first all_names nn i Hi Hfirst) as [js Hw].
  exists d. split_and!; [done| |].
  - rewrite Hnode. unfold sideset_value, get_key. cbn [fst snd]. by rewrite Hw.
  - rewrite Helem. unfold sideset_value, get_key. cbn [fst snd]. by rewrite Hw.
Qed.

Lemma get_sidesets_declared_witness :
  ∃ side_sets, get_sidesets mech (Some ["bottom"]) = Some side_sets
    ∧ side_sets !! ("bottom", "node")
      = Some (get_var mech (Some ("node_ns" +:+ pretty (0 + 1))))
    ∧ side_sets !! ("bottom", "elem")
      = Some (get_var mech (Some ("elem_ss" +:+ pretty (0 + 1)))).
Proof.
  apply (get_sidesets_declared mech ["bottom"; "top"] ["bottom"] "bottom" 0).
  - reflexivity.
  - left.
  - reflexivity.
  - intros j Hj. lia.
Defined.

(** X8. When the side-set name table exists, the keys of the mapping
    [get_sidesets] returns are exactly the pairs [(name, 'node')] and
    [(name, 'elem')] of the requested names, declared or not. *)
Theorem get_sidesets_keys (self : ExodusReader) (all_names names : list string) :
  get_sideset_names self = Some all_names →
  ∃ side_sets, get_sidesets self (Some names) = Some side_sets
    ∧ ∀ k, is_Some (side_sets !! k)
        ↔ ∃ nn, nn ∈ names ∧ (k = (nn, "node") ∨ k = (nn, "elem")).
Proof.
  intros Hall. unfold get_sidesets. rewrite Hall.
  eexists. split; [done|]. intros k.
  rewrite get_sidesets_loop, foldl_insert_lookup.
  destruct (decide (k ∈ names ≫= sideset_keys)) as [Hin|Hnin].
  - split; [intros _ | by eexists].
    apply list_elem_of_bind in Hin as (nn & Hk & Hnn). exists nn. split; [done|].
    unfold sideset_keys in Hk.
    apply elem_of_cons in Hk as [->|Hk]; [by left|].
    apply list_elem_of_singleton in Hk as ->. by right.
  - rewrite lookup_empty. split; [by intros [? ?]|].
    intros (nn & Hnn & Hk). destruct Hnin.
    apply list_elem_of_bind. exists nn. split; [|done].
    unfold sideset_keys. destruct Hk as [->| ->]; [left | right; left].
Qed.

Lemma get_sidesets_keys_witness :
  ∃ side_sets, get_sidesets mech (Some ["top"; "left"]) = Some side_sets
    ∧ ∀ k, is_Some (side_sets !! k)
        ↔ ∃ nn, nn ∈ ["top"; "left"] ∧ (k = (nn, "node") ∨ k = (nn, "elem")).
Proof.
  apply (get_sidesets_keys mech ["bottom"; "top"] ["top"; "left"]). reflexivity.
Defined.

(** ** Names and blocks *)

Lemma block_numbers (n : nat) :
  map (λ ii, Z.of_nat (ii + 1)) (seq 0 n) = Z.of_nat <$> seq 1 n.
Proof.
  rewrite <- (fmap_S_seq 0 n), <- list_fmap_compose.
  apply list_fmap_ext. intros _ ii _. simpl. f_equal. lia.
Qed.

(** X9. [get_elem_var_names_and_blocks] never returns [None]: without a
    block table it raises [AttributeError]; with a block table and no
    elemental name table it raises [TypeError]; otherwise it returns the
    declared names in table order, each paired with the block numbers 1
    to the block count in increasing order. *)
Theorem get_elem_var_names_and_blocks_cases (self : ExodusReader) :
  get_elem_var_names_and_blocks self
  = match get_names self (Some "eb_names"), get_elem_var_names self with
    | None, _ => Raise AttributeError
    | Some _, None => Raise TypeError
    | Some eb_names, Some names =>
        Ok (Some (names ≫= λ nn, pair nn <$> (Z.of_nat <$> seq 1 (length eb_names))))
    end.
Proof.
  unfold get_elem_var_names_and_blocks, get_num_elem_blocks.
  destruct (get_names self (Some "eb_names")) as [eb_names|]; simpl; [|done].
  destruct (get_elem_var_names self) as [names|]; [|done].
  by rewrite names_blocks_loop, app_nil_l, block_numbers.
Qed.

(** ** Whole records *)

(** X10. Reading with the configuration the file itself yields is
    reading everything: whenever [get_read_config] returns a
    configuration, [read_sim_data] on it and [read_all_sim_data] give the
    same outcome, record or error. *)
Theorem read_sim_data_own_config (self : ExodusReader) (read_config : SimReadConfig) :
  get_read_config self = Ok read_config →
  read_sim_data self read_config = read_all_sim_data self.
Proof.
  unfold get_read_config, read_sim_data, read_all_sim_data.
  unfold get_all_sidesets, get_all_node_vars, get_all_elem_vars, get_all_glob_vars.
  destruct (get_elem_var_names_and_blocks self) as [nb|e]; simpl; [|done].
  by intros [= <-].
Qed.

Lemma read_sim_data_own_config_witness :
  read_sim_data mech
    {| cfg_sidesets := Some ["bottom"; "top"];
       cfg_node_vars := Some ["disp_x"; "disp_y"];
       cfg_elem_vars := Some [("strain_xx", 1%Z); ("strain_xx", 2%Z)];
       cfg_glob_vars := Some ["react_y"] |}
  = read_all_sim_data mech.
Proof.
  apply (read_sim_data_own_config mech). reflexivity.
Defined.

(** X11. A record that [read_sim_data] returns always holds the time
    vector, the coordinates and a connectivity mapping; a variable
    category is absent from it exactly when the configuration requests
    none, or, for side sets, elemental and global variables, when the
    file has no name table for it. *)
Theorem read_sim_data_record (self : ExodusReader) (read_config : SimReadConfig)
    (data : SimData) :
  read_sim_data self read_config = Ok data →
  time data = Some (get_time self)
  ∧ (∃ c, get_coords self = Ok c ∧ coords data = Some c)
  ∧ (∃ cn, get_connectivity self = Ok cn ∧ connect data = Some cn)
  ∧ (side_sets data = None
     ↔ cfg_sidesets read_config = None ∨ get_sideset_names self = None)
  ∧ (node_vars data = None ↔ cfg_node_vars read_config = None)
  ∧ (elem_vars data = None
     ↔ cfg_elem_vars read_config = None ∨ get_elem_var_names self = None)
  ∧ (glob_vars data = None
     ↔ cfg_glob_vars read_config = None ∨ get_glob_var_names self = None).
Proof.
  unfold read_sim_data.
  destruct (get_coords self) as [c|]; simpl; [|done].
  destruct (get_connectivity self) as [cn|]; simpl; [|done].
  destruct (get_node_vars self _) as [nv|] eqn:Hnv; simpl; [|done].
  destruct (get_elem_vars self _) as [ev|] eqn:Hev; simpl; [|done].
  destruct (get_glob_vars self _) as [gv|] eqn:Hgv; simpl; [|done].
  intros [= <-]. simpl. split_and!; [done | by eexists | by eexists | | | |].
  - unfold get_sidesets.
    destruct (cfg_sidesets read_config), (get_sideset_names self);
      split; (done || (intros [?|?]; done) || auto).
  - unfold get_node_vars in Hnv.
    destruct (cfg_node_vars read_config) as [names|]; [|by simplify_eq].
    destruct (for_each _ _ _); simplify_eq/=. by split.
  - unfold get_elem_vars in Hev.
    destruct (get_elem_var_names self), (cfg_elem_vars read_config);
      try (simplify_eq; split; auto; done).
    destruct (for_each _ _ _); simplify_eq/=. split; [done | by intros [?|?]].
  - unfold get_glob_vars in Hgv.
    destruct (get_glob_var_names self), (cfg_glob_vars read_config);
      try (simplify_eq; split; auto; done).
    destruct (for_each _ _ _); simplify_eq/=. split; [done | by intros [?|?]].
Qed.

Lemma read_sim_data_record_witness :
  ∃ data, read_sim_data mech nodal_config = Ok data
    ∧ time data = Some (get_time mech)
    ∧ (∃ c, get_coords mech = Ok c ∧ coords data = Some c)
    ∧ (∃ cn, get_connectivity mech = Ok cn ∧ connect data = Some cn)
    ∧ (side_sets data = None
       ↔ cfg_sidesets nodal_config = None ∨ get_sideset_names mech = None)
    ∧ (node_vars data = None ↔ cfg_node_vars nodal_config = None)
    ∧ (elem_vars data = None
       ↔ cfg_elem_vars nodal_config = None ∨ get_elem_var_names mech = None)
    ∧ (glob_vars data = None
       ↔ cfg_glob_vars nodal_config = None ∨ get_glob_var_names mech = None).
Proof.
  eexists. split; [vm_compute; reflexivity|].
  apply (read_sim_data_record mech nodal_config). vm_compute. reflexivity.
Defined.

Lemma read_all_sim_data_keys_witness :
  ∃ data nv ev gv,
    read_all_sim_data mech = Ok data
    ∧ node_vars data = Some nv ∧ dom nv = list_to_set ["disp_x"; "disp_y"]
    ∧ elem_vars data = Some ev
    ∧ (∀ nn bb, (nn, bb) ∈ dom ev
         ↔ nn ∈ ["strain_xx"] ∧ (1 ≤ bb ≤ Z.of_nat (length [""; ""]))%Z)
    ∧ glob_vars data = Some gv ∧ dom gv = list_to_set ["react_y"].
Proof.
  eapply (read_all_sim_data_keys mech [""; ""] ["disp_x"; "disp_y"] ["strain_xx"]
            ["react_y"] _ 2 1 [[0]; [12.5]]%float).
  - reflexivity.
  - reflexivity.
  - reflexivity.
  - reflexivity.
  - reflexivity.
  - simpl. lia.
  - vm_compute. reflexivity.
Defined.

Lemma get_coords_all_empty (self : ExodusReader) :
  axis_empty self "coordx" → axis_empty self "coordy" → axis_empty self "coordz" →
  get_coords self = Raise RuntimeError.
Proof.
  rewrite !axis_empty_shape0. intros Hx Hy Hz.
  unfold get_coords. by rewrite Hx, Hy, Hz.
Qed.

(** X13. Nothing can be read from a file without coordinates or without
    a block table, whatever the configuration asks for: with all three
    axes absent or empty [read_sim_data] raises [RuntimeError], and with
    readable coordinates and no [eb_names] table it raises
    [AttributeError]. *)
Theorem read_sim_data_needs_coords_and_blocks (self : ExodusReader)
    (read_config : SimReadConfig) :
  (axis_empty self "coordx" → axis_empty self "coordy" → axis_empty self "coordz"
   → read_sim_data self read_config = Raise RuntimeError)
  ∧ (∀ c, get_coords self = Ok c → get_names self (Some "eb_names") = None
     → read_sim_data self read_config = Raise AttributeError).
Proof.
  split.
  - intros Hx Hy Hz. unfold read_sim_data.
    by rewrite (get_coords_all_empty self Hx Hy Hz).
  - intros c Hc Heb. unfold read_sim_data. rewrite Hc. simpl.
    unfold get_connectivity, get_connectivity_names, get_num_elem_blocks.
    by rewrite Heb.
Qed.

Lemma read_sim_data_needs_coords_and_blocks_witness :
  read_sim_data empty_x nodal_config = Raise RuntimeError
  ∧ read_sim_data no_blocks nodal_config = Raise AttributeError.
Proof.
  split.
  - apply (proj1 (read_sim_data_needs_coords_and_blocks empty_x nodal_config));
      vm_compute; [reflexivity | exact I | exact I].
  - eapply (proj2 (read_sim_data_needs_coords_and_blocks no_blocks nodal_config));
      vm_compute; reflexivity.
Defined.

(** ** Coordinates *)

Lemma get_var_1d (self : ExodusReader) (key : string) :
  (∀ a, variables (_data self) !! key = Some a → ∃ l, a = Vec l) →
  ∃ l, get_var self (Some key) = Vec l.
Proof.
  intros H1d. unfold get_var.
  destruct (variables (_data self) !! key) as [a|]; [|by exists []].
  destruct (H1d a eq_refl) as [l ->]. by exists l.
Qed.

(** [get_coords] on three vectors, by their lengths. *)
Lemma get_coords_vectors (self : ExodusReader) (lx ly lz : list float) :
  get_var self (Some "coordx") = Vec lx →
  get_var self (Some "coordy") = Vec ly →
  get_var self (Some "coordz") = Vec lz →
  (length lx = 0 ∧ length ly = 0 ∧ length lz = 0
   ∧ get_coords self = Raise RuntimeError)
  ∨ (0 < length lx `max` (length ly `max` length lz)
     ∧ (∀ l, l ∈ [lx; ly; lz] →
          length l = 0 ∨ length l = length lx `max` (length ly `max` length lz))
     ∧ ∃ table, get_coords self = Ok table)
  ∨ (0 < length lx `max` (length ly `max` length lz)
     ∧ (∃ l, l ∈ [lx; ly; lz] ∧ length l ≠ 0
             ∧ length l ≠ length lx `max` (length ly `max` length lz))
     ∧ get_coords self = Raise ValueError).
Proof.
  intros Hx Hy Hz. unfold get_coords. rewrite Hx, Hy, Hz. cbn [shape0].
  remember (length lx `max` (length ly `max` length lz)) as m eqn:Hmdef.
  destruct (Nat.eqb_spec m 0) as [Hm|Hm].
  { left. split_and!; [lia..|done]. }
  right. unfold _expand_coord, np_zeros, np_vstack3. cbn [shape0].
  assert (∀ l : list float,
    atleast_2d (if Nat.eqb (length l) 0 then Vec (replicate m 0%float) else Vec l)
    = (1, if Nat.eqb (length l) 0 then m else length l,
       [if Nat.eqb (length l) 0 then replicate m 0%float else l])) as Hexp.
  { intros l. destruct (Nat.eqb (length l) 0); simpl; [|done].
    by rewrite length_replicate. }
  rewrite !Hexp. clear Hexp.
  assert (Hmem : ∀ P : list float → Prop,
    P lx → P ly → P lz → ∀ l, l ∈ [lx; ly; lz] → P l).
  { intros P ? ? ? l Hl. rewrite !elem_of_cons, elem_of_nil in Hl.
    by destruct Hl as [->|[->|[->|[]]]]. }
  destruct (Nat.eqb_spec (length lx) 0) as [Hx0|Hx0],
           (Nat.eqb_spec (length ly) 0) as [Hy0|Hy0],
           (Nat.eqb_spec (length lz) 0) as [Hz0|Hz0];
    cbv iota;
    match goal with
    | |- context [Nat.eqb ?a ?b && Nat.eqb ?b ?c] =>
        destruct (Nat.eqb_spec a b) as [Hab|Hab], (Nat.eqb_spec b c) as [Hbc|Hbc];
        cbn [andb]; cbv iota
    end;
    try (exfalso; lia);
    first
      [ left; split; [lia|]; split; [apply Hmem; lia | by eexists]
      | right; split; [lia|]; split; [|done];
        assert ((length lx ≠ 0 ∧ length lx ≠ m)
                ∨ (length ly ≠ 0 ∧ length ly ≠ m)
                ∨ (length lz ≠ 0 ∧ length lz ≠ m)) as [?|[?|?]] by lia;
        [ exists lx; split; [left | done]
        | exists ly; split; [right; left | done]
        | exists lz; split; [right; right; left | done] ] ].
Qed.

(** X14. On a file whose coordinate axes are one-dimensional,
    [get_coords] raises [ValueError] exactly when two non-empty axes
    differ in length, and returns a table exactly when some axis is
    non-empty and all non-empty axes have one length. *)
Theorem get_coords_mismatch_iff (self : ExodusReader) :
  (∀ key, key ∈ coord_keys →
     ∀ a, variables (_data self) !! key = Some a → ∃ l, a = Vec l) →
  (get_coords self = Raise ValueError
   ↔ ∃ k1 k2, k1 ∈ coord_keys ∧ k2 ∈ coord_keys
       ∧ 0 < axis_len self k1 ∧ 0 < axis_len self k2
       ∧ axis_len self k1 ≠ axis_len self k2)
  ∧ ((∃ table, get_coords self = Ok table)
     ↔ (∃ k, k ∈ coord_keys ∧ 0 < axis_len self k)
       ∧ ∀ k1 k2, k1 ∈ coord_keys → k2 ∈ coord_keys
           → 0 < axis_len self k1 → 0 < axis_len self k2
           → axis_len self k1 = axis_len self k2).
Proof.
  intros H1d.
  destruct (get_var_1d self "coordx") as [lx Hx]; [apply H1d; left|].
  destruct (get_var_1d self "coordy") as [ly Hy]; [apply H1d; right; left|].
  destruct (get_var_1d self "coordz") as [lz Hz]; [apply H1d; right; right; left|].
  assert (Hkeys : ∀ (P : string → Prop),
    (∀ k, k ∈ coord_keys → P k) ↔ P "coordx" ∧ P "coordy" ∧ P "coordz").
  { intros P. unfold coord_keys. split.
    - intros HP. split_and!; apply HP; [left | right; left | right; right; left].
    - intros (? & ? & ?) k Hk. rewrite !elem_of_cons, elem_of_nil in Hk.
      by destruct Hk as [->|[->|[->|[]]]]. }
  assert (Hlx : axis_len self "coordx" = length lx) by (unfold axis_len; by rewrite Hx).
  assert (Hly : axis_len self "coordy" = length ly) by (unfold axis_len; by rewrite Hy).
  assert (Hlz : axis_len self "coordz" = length lz) by (unfold axis_len; by rewrite Hz).
  destruct (get_coords_vectors self lx ly lz Hx Hy Hz)
    as [(H0x & H0y & H0z & ->)|[(Hm & Hlens & table & ->)|(Hm & Hbad & ->)]];
    [|remember (length lx `max` (length ly `max` length lz)) as m eqn:Hmdef..].
  - assert (Hzero : ∀ k, k ∈ coord_keys → axis_len self k = 0).
    { apply Hkeys. rewrite Hlx, Hly, Hlz. by split_and!. }
    split; split; try done.
    + intros (k1 & k2 & Hk1 & _ & Hpos & _). specialize (Hzero k1 Hk1). lia.
    + by intros [? ?].
    + intros [(k & Hk & Hpos) _]. specialize (Hzero k Hk). lia.
  - assert (Hax : ∀ k, k ∈ coord_keys → axis_len self k = 0 ∨ axis_len self k = m).
    { apply Hkeys. rewrite Hlx, Hly, Hlz.
      split_and!; apply Hlens; [left | right; left | right; right; left]. }
    split; split; try done.
    + intros (k1 & k2 & Hk1 & Hk2 & Hp1 & Hp2 & Hne).
      destruct (Hax k1 Hk1), (Hax k2 Hk2); lia.
    + intros _. split.
      * assert (length lx = m ∨ length ly = m ∨ length lz = m) as [?|[?|?]]
          by lia.
        -- exists "coordx". split; [left | lia].
        -- exists "coordy". split; [right; left | lia].
        -- exists "coordz". split; [right; right; left | lia].
      * intros k1 k2 Hk1 Hk2 Hp1 Hp2. destruct (Hax k1 Hk1), (Hax k2 Hk2); lia.
    + intros _. by eexists.
  - destruct Hbad as (l & Hl & Hl0 & Hlm).
    assert (∃ k1 k2, k1 ∈ coord_keys ∧ k2 ∈ coord_keys
              ∧ 0 < axis_len self k1 ∧ 0 < axis_len self k2
              ∧ axis_len self k1 ≠ axis_len self k2) as Hpair.
    { assert (length lx = m ∨ length ly = m ∨ length lz = m) as Hmax
        by lia.
      assert (∃ k, k ∈ coord_keys ∧ axis_len self k = length l) as (kl & Hkl & Hlen).
      { rewrite !elem_of_cons, elem_of_nil in Hl.
        destruct Hl as [->|[->|[->|[]]]];
          [exists "coordx" | exists "coordy" | exists "coordz"];
          (split; [unfold coord_keys; rewrite !elem_of_cons; auto | done]). }
      assert (∃ k, k ∈ coord_keys ∧ axis_len self k = m) as (km & Hkm & Hlenm).
      { destruct Hmax as [?|[?|?]];
          [exists "coordx" | exists "coordy" | exists "coordz"];
          (split; [unfold coord_keys; rewrite !elem_of_cons; auto | lia]). }
      exists kl, km. split_and!; [done | done | lia | lia | lia]. }
    split; split; try done.
    + by intros [? ?].
    + intros [_ Heq]. destruct Hpair as (k1 & k2 & Hk1 & Hk2 & Hp1 & Hp2 & Hne).
      destruct Hne. by apply Heq.
Qed.

Lemma get_coords_mismatch_iff_witness :
  (get_coords ragged = Raise ValueError
   ↔ ∃ k1 k2, k1 ∈ coord_keys ∧ k2 ∈ coord_keys
       ∧ 0 < axis_len ragged k1 ∧ 0 < axis_len ragged k2
       ∧ axis_len ragged k1 ≠ axis_len ragged k2)
  ∧ ((∃ table, get_coords ragged = Ok table)
     ↔ (∃ k, k ∈ coord_keys ∧ 0 < axis_len ragged k)
       ∧ ∀ k1 k2, k1 ∈ coord_keys → k2 ∈ coord_keys
           → 0 < axis_len ragged k1 → 0 < axis_len ragged k2
           → axis_len ragged k1 = axis_len ragged k2).
Proof.
  apply (get_coords_mismatch_iff ragged).
  intros key Hkey a. unfold coord_keys in Hkey.
  rewrite !elem_of_cons, elem_of_nil in Hkey.
  destruct Hkey as [->|[->|[->|[]]]]; vm_compute; intros [= <-]; by eexists.
Defined.

(** ** Transposition *)

Lemma map_nth_seq {A : Type} (d : A) (l : list A) :
  map (λ i, nth i l d) (seq 0 (length l)) = l.
Proof.
  apply (nth_ext _ _ (nth 0 l d) d).
  - by rewrite length_map, length_seq.
  - intros n. rewrite length_map, length_seq. intros Hn.
    rewrite (map_nth (λ i, nth i l d) (seq 0 (length l)) 0 n).
    by rewrite seq_nth.
Qed.

Lemma nth_column (i j : nat) (rows : list (list float)) :
  nth i (column j rows) 0%float = nth j (nth i rows []) 0%float.
Proof.
  unfold column.
  rewrite <- (map_nth (λ r : list float, nth j r 0%float) rows [] i).
  by destruct j.
Qed.

(** Transposing twice gives a well-formed table back. *)
Lemma transpose_rows_involutive (r c : nat) (rows : list (list float)) :
  length rows = r →
  Forall (λ row, length row = c) rows →
  transpose_rows r (transpose_rows c rows) = rows.
Proof.
  intros <- Hwidth. unfold transpose_rows at 1.
  transitivity (map (λ i, nth i rows []) (seq 0 (length rows)));
    [|apply map_nth_seq].
  apply map_ext_in. intros i Hi%in_seq.
  assert (length (nth i rows []) = c) as Hrow.
  { rewrite Forall_forall in Hwidth. apply Hwidth, list_elem_of_In, nth_In. lia. }
  transitivity (map (λ j, nth j (nth i rows []) 0%float) (seq 0 c));
    [|rewrite <- Hrow; apply map_nth_seq].
  unfold column at 1, transpose_rows. rewrite map_map.
  apply map_ext. intros j. apply nth_column.
Qed.

(** X15. [get_var] loses nothing by transposing: for a stored array that
    is well formed, transposing what [get_var] returns gives the stored
    array back. *)
Theorem get_var_transpose_back (self : ExodusReader) (key : string) (a : ndarray) :
  variables (_data self) !! key = Some a →
  wf_array a →
  np_T (get_var self (Some key)) = a.
Proof.
  intros Ha Hwf. unfold get_var. rewrite Ha.
  destruct a as [l|r c rows]; simpl; [done|].
  destruct Hwf as [Hr Hc]. f_equal. by apply transpose_rows_involutive.
Qed.

Lemma get_var_transpose_back_witness :
  np_T (get_var mech (Some "vals_nod_var1"))
  = Mat 2 6 [[0; 0; 0; 0; 0; 0]; [0; 0.125; 0.25; 0; 0.125; 0.25]]%float.
Proof.
  apply (get_var_transpose_back mech "vals_nod_var1").
  - reflexivity.
  - split; [reflexivity|]. repeat constructor.
Defined.

(** ** Connectivity keys *)

(** X16. With a block table of [B] entries, [get_connectivity_names]
    returns the keys among [connect1] to [connectB] that the file holds,
    in block order and without repetition, and [get_connectivity]
    returns a mapping with one entry per such key. *)
Theorem get_connectivity_names_ordered (self : ExodusReader) (eb_names : list string) :
  get_names self (Some "eb_names") = Some eb_names →
  get_connectivity_names self = Ok (present_connect_keys self (length eb_names))
  ∧ NoDup (present_connect_keys self (length eb_names))
  ∧ ∃ table, get_connectivity self = Ok table
      ∧ size table = length (present_connect_keys self (length eb_names)).
Proof.
  intros Heb.
  assert (Hnames : get_connectivity_names self
                   = Ok (present_connect_keys self (length eb_names))).
  { unfold get_connectivity_names, get_num_elem_blocks. rewrite Heb. simpl.
    by rewrite get_connectivity_names_loop, app_nil_l. }
  assert (Hnodup : NoDup (present_connect_keys self (length eb_names))).
  { unfold present_connect_keys. apply NoDup_filter, NoDup_fmap_2.
    - intros b1 b2. apply connect_key_inj.
    - apply NoDup_seq. }
  split_and!; [done | done |].
  unfold get_connectivity. rewrite Hnames. simpl. eexists. split; [done|].
  rewrite <- size_dom, (foldl_insert_dom (λ key, get_var self (Some key))).
  by apply size_list_to_set.
Qed.

Lemma get_connectivity_names_ordered_witness :
  get_connectivity_names mech = Ok (present_connect_keys mech (length [""; ""]))
  ∧ NoDup (present_connect_keys mech (length [""; ""]))
  ∧ ∃ table, get_connectivity mech = Ok table
      ∧ size table = length (present_connect_keys mech (length [""; ""])).
Proof.
  apply (get_connectivity_names_ordered mech [""; ""]). reflexivity.
Defined.

(** ** Construction *)

(** X17. Construction never returns a reader for a path that is not a
    regular file: when the name does not end in [.e] the guard raises
    [FileNotFoundError], and a directory whose name ends in [.e] passes
    the guard and fails in netCDF4 with [OSError]. *)
Theorem init_not_a_file (fs : FileSystem) (p : string) :
  is_file fs p = false →
  (∃ e, init fs p = Raise e)
  ∧ (path_suffix p ≠ ".e" → init fs p = Raise FileNotFoundError)
  ∧ (path_suffix p = ".e" → p ∈ directories fs → init fs p = Raise OSError).
Proof.
  intros Hfile.
  assert (netcdf_files fs !! p = None) as Hnone.
  { unfold is_file in Hfile. destruct (netcdf_files fs !! p) as [d|]; [|done].
    rewrite bool_decide_eq_true_2 in Hfile; [done | by eexists]. }
  unfold init, nc_Dataset. rewrite Hfile, Hnone. cbn [negb andb orb].
  split_and!.
  - case_bool_decide; simpl; [case_bool_decide|]; by eexists.
  - intros Hsuffix. by rewrite bool_decide_eq_false_2.
  - intros Hsuffix Hdir. by rewrite !bool_decide_eq_true_2.
Qed.

Lemma init_not_a_file_witness :
  (∃ e, init disk "out/archive.e" = Raise e)
  ∧ (path_suffix "out/archive.e" ≠ ".e"
     → init disk "out/archive.e" = Raise FileNotFoundError)
  ∧ (path_suffix "out/archive.e" = ".e" → "out/archive.e" ∈ directories disk
     → init disk "out/archive.e" = Raise OSError).
Proof.
  apply (init_not_a_file disk "out/archive.e"). reflexivity.
Defined.

(** X18. Construction returns a reader exactly for a path that holds a
    netCDF dataset, and the reader keeps that path and that dataset;
    the extension of the path plays no part. *)
Theorem init_ok_iff (fs : FileSystem) (p : string) (reader : ExodusReader) :
  init fs p = Ok reader
  ↔ netcdf_files fs !! p = Some (_data reader) ∧ _exodus_path reader = p.
Proof.
  split.
  - unfold init, nc_Dataset.
    destruct (negb (is_file fs p) && negb (bool_decide (path_suffix p = ".e")));
      [done|].
    destruct (netcdf_files fs !! p) as [d|]; simpl.
    + by intros [= <-].
    + by destruct (is_file fs p || bool_decide (p ∈ directories fs)).
  - intros [Hd <-]. rewrite (init_opens_netcdf_file fs _ _ Hd). by destruct reader.
Qed.

(** * Properties of the MOOSE configuration *)

(** X19. Converting a configuration to strings and back gives the same
    configuration, provided each key holds a path in normal form when
    its name contains [path] and a string otherwise. *)
Theorem convert_round_trip (norm : string → string)
    (config : gmap string MooseConfig.value) :
  MooseConfig.typed_by_key norm config →
  MooseConfig.convert_str_to_path norm
    (MooseConfig.convert_path_to_str (Some config)) = Some config.
Proof.
  intros Htyped. unfold MooseConfig.convert_str_to_path. simpl. f_equal.
  apply map_eq. intros kk. rewrite map_lookup_imap, lookup_fmap.
  destruct (config !! kk) as [v|] eqn:Hv; simpl; [|done].
  specialize (Htyped kk v Hv). simpl in Htyped.
  destruct v as [p|str]; simpl.
  - destruct Htyped as [-> Hnorm]. unfold MooseConfig.Path. by rewrite Hnorm.
  - by rewrite Htyped.
Qed.

Lemma convert_round_trip_witness :
  MooseConfig.convert_str_to_path (λ p, p)
    (MooseConfig.convert_path_to_str (Some MooseConfig.sample))
  = Some MooseConfig.sample.
Proof.
  apply (convert_round_trip (λ p, p) MooseConfig.sample).
  unfold MooseConfig.typed_by_key, MooseConfig.sample. cbn [list_to_map foldr].
  cbn [fst snd].
  repeat (apply map_Forall_insert_2; [by vm_compute|]).
  apply map_Forall_empty.
Defined.

(** X20. What [convert_str_to_path] builds is typed by its keys: when
    pathlib's normal form is idempotent, every key whose name contains
    [path] holds a path in normal form and every other key a string, and
    the keys are those of the input. *)
Theorem convert_str_to_path_typed (norm : string → string)
    (strs : gmap string string) (config : gmap string MooseConfig.value) :
  (∀ p, norm (norm p) = norm p) →
  MooseConfig.convert_str_to_path norm (Some strs) = Some config →
  MooseConfig.typed_by_key norm config ∧ dom config = dom strs.
Proof.
  intros Hidem [= <-]. split.
  - intros kk v. rewrite map_lookup_imap.
    destruct (strs !! kk) as [str|]; simpl; [|done].
    intros [= <-]. destruct (MooseConfig.contains "path" kk) eqn:Hkk; simpl; [|done].
    split; [done | apply Hidem].
  - apply set_eq. intros kk. rewrite !elem_of_dom, map_lookup_imap.
    destruct (strs !! kk); simpl.
    + split; intros _; by eexists.
    + split; by intros [? ?].
Qed.

Lemma convert_str_to_path_typed_witness :
  MooseConfig.typed_by_key (λ p, p) MooseConfig.sample
  ∧ dom MooseConfig.sample
    = dom (list_to_map [("main_path", "/home/moose");
                        ("app_path", "/home/proteus");
                        ("app_name", "proteus-opt")] : gmap string string).
Proof.
  apply (convert_str_to_path_typed (λ p, p)).
  - reflexivity.
  - vm_compute. reflexivity.
Defined.

(** X21. [_check_config_valid] accepts a configuration exactly when it
    holds the three required keys and its [main_path] and [app_path] are
    paths to directories. *)
Theorem check_config_valid_iff (dirs : gset string)
    (config : gmap string MooseConfig.value) :
  MooseConfig._check_config_valid dirs (Some config) = inr ()
  ↔ ∃ mp ap, config !! "main_path" = Some (MooseConfig.VPath mp)
      ∧ config !! "app_path" = Some (MooseConfig.VPath ap)
      ∧ is_Some (config !! "app_name")
      ∧ mp ∈ dirs ∧ ap ∈ dirs.
Proof.
  unfold MooseConfig._check_config_valid, MooseConfig.is_dir_at,
    MooseConfig._required_keys. cbn [forallb].
  split.
  - destruct (config !! "main_path") as [[mp|?]|];
      destruct (config !! "app_path") as [[ap|?]|];
      destruct (config !! "app_name") as [an|];
      repeat case_bool_decide; cbn [andb]; try done;
      try match goal with
          | H : ¬ is_Some (Some _) |- _ => destruct H; by eexists
          end.
    intros _. exists mp, ap. by split_and!.
  - intros (mp & ap & -> & -> & [an ->] & Hmp & Hap).
    rewrite !bool_decide_eq_true_2; done || by eexists.
Qed.

(** X22. A configuration that the constructor accepts is what
    [get_config] returns on the same disk, and an object constructed
    without a configuration has none to give: [get_config] raises
    [MooseConfigError]. *)
Theorem get_config_after_init (dirs : gset string) :
  (∀ config self,
     MooseConfig.init dirs (Some config) = inr self →
     MooseConfig.get_config dirs self = inr config)
  ∧ (∀ self,
       MooseConfig.init dirs None = inr self →
       MooseConfig.get_config dirs self = inl MooseConfig.MooseConfigError).
Proof.
  split.
  - intros config self. unfold MooseConfig.init, MooseConfig.get_config.
    destruct (MooseConfig._check_config_valid dirs (Some config)) as [e|[]] eqn:Hvalid;
      [done|].
    intros [= <-]. cbn [MooseConfig._config]. by rewrite Hvalid.
  - intros self [= <-]. done.
Qed.

Lemma get_config_after_init_witness :
  MooseConfig.get_config MooseConfig.sample_dirs
    {| MooseConfig._config := Some MooseConfig.sample |}
  = inr MooseConfig.sample.
Proof.
  apply (proj1 (get_config_after_init MooseConfig.sample_dirs)).
  vm_compute. reflexivity.
Defined.

(** X23. A configuration that holds its three keys with [main_path]
    given as a plain string, not a path, is refused with
    [AttributeError] rather than [MooseConfigError]. *)
Theorem check_config_valid_str_path (dirs : gset string)
    (config : gmap string MooseConfig.value) (s : string) :
  config !! "main_path" = Some (MooseConfig.VStr s) →
  is_Some (config !! "app_path") →
  is_Some (config !! "app_name") →
  MooseConfig._check_config_valid dirs (Some config)
  = inl (MooseConfig.Builtin AttributeError).
Proof.
  intros Hmp Hap Han.
  unfold MooseConfig._check_config_valid, MooseConfig.is_dir_at,
    MooseConfig._required_keys. cbn [forallb].
  rewrite Hmp. rewrite !bool_decide_eq_true_2; done || by eexists.
Qed.

Lemma check_config_valid_str_path_witness :
  MooseConfig._check_config_valid MooseConfig.sample_dirs
    (Some (<["main_path" := MooseConfig.VStr "/home/moose"]> MooseConfig.sample))
  = inl (MooseConfig.Builtin AttributeError).
Proof.
  apply (check_config_valid_str_path MooseConfig.sample_dirs _ "/home/moose").
  - reflexivity.
  - eexists. vm_compute. reflexivity.
  - eexists. vm_compute. reflexivity.
Defined.
